(** * Dealership lead assistant: the chat back end, embedded and verified

    A shallow embedding of [server/helpers/llm_utils.py],
    [server/helpers/sql_helpers.py] and [server/routes/all_routes.py].

    - An entry of a conversation history is any JSON value: an [Entry] is
      either an object, read against the chat schema as a [Message] (a
      record whose fields say whether the key is absent, holds [null] or
      holds a value), or a value that is not an object, on which the code's
      [msg.get] raises. Free-form JSON (tool arguments, summaries, the
      [message] of a request) is the inductive type [json], in which a float
      is the rational it denotes.
    - Text is [string]: the UTF-8 bytes of a Python [str]. On ASCII text
      [str.lower] and [str.strip] are computed here; on any other text they
      are the Python runtime's, which follow the Unicode tables, and are
      fields of the [World].
    - Code that can raise returns a [result]; code that talks to the model
      API, the video API or the database runs in the monad [M], which threads
      the database session and a trace of the calls made, and keeps both when
      an exception passes through, as Python does.
    - Collaborators that are not part of the repository (the model API, the
      JSON codec, the SQL engine, the clock) are the fields of a [World]. *)

From Stdlib Require Import List String Ascii Bool Arith ZArith QArith Lia.
From Stdlib Require Import DecimalString.
Import ListNotations.
Local Open Scope string_scope.
Local Open Scope list_scope.

Set Implicit Arguments.

(* ===================================================================== *)
(** * Python values and exceptions *)
(* ===================================================================== *)

(** The exceptions the embedded code can raise or see, each with the text
    [str(e)] gives. [ExternalError] is anything raised by a collaborator. *)
Inductive exn : Type :=
| TypeError (msg : string)
| AttributeError (msg : string)
| KeyError (key : string)
| ExternalError (msg : string).

(** The double quote and the apostrophe, and the line feed. *)
Definition dq : string := String (ascii_of_nat 34) EmptyString.
Definition sq : string := String (ascii_of_nat 39) EmptyString.
Definition nl : string := String (ascii_of_nat 10) EmptyString.

(** [str(e)]. *)
Definition exn_text (e : exn) : string :=
  match e with
  | TypeError msg => msg
  | AttributeError msg => msg
  | KeyError key => (sq ++ key ++ sq)%string
  | ExternalError msg => msg
  end.

Inductive result (A : Type) : Type :=
| Ok (a : A)
| Raise (e : exn).
Arguments Ok {A} a.
Arguments Raise {A} e.

(** A key of a received dictionary: missing, [null], or a value. *)
Inductive field (A : Type) : Type :=
| Absent
| Null
| Val (a : A).
Arguments Absent {A}.
Arguments Null {A}.
Arguments Val {A} a.

(** The text of the [AttributeError] and [TypeError] that [None] raises. *)
Definition none_has_no_attribute (attr : string) : exn :=
  AttributeError ("'NoneType' object has no attribute '" ++ attr ++ "'")%string.
Definition none_not_iterable : exn :=
  TypeError "argument of type 'NoneType' is not iterable".

(* ===================================================================== *)
(** * Strings *)
(* ===================================================================== *)

Module Str.

(** Whether the text is ASCII: every byte is below 128. *)
Definition is_ascii_char (c : ascii) : bool := (nat_of_ascii c <? 128)%nat.

Fixpoint is_ascii (s : string) : bool :=
  match s with
  | EmptyString => true
  | String c t => is_ascii_char c && is_ascii t
  end.

(** [s.lower()] on ASCII text. *)
Definition lower_ascii (c : ascii) : ascii :=
  let n := nat_of_ascii c in
  if (65 <=? n)%nat && (n <=? 90)%nat then ascii_of_nat (n + 32) else c.

Fixpoint lower (s : string) : string :=
  match s with
  | EmptyString => EmptyString
  | String c t => String (lower_ascii c) (lower t)
  end.

(** [needle in hay]. *)
Fixpoint contains (needle hay : string) : bool :=
  String.prefix needle hay ||
  match hay with
  | EmptyString => false
  | String _ t => contains needle t
  end.

(** White space as [str.strip()] sees it in ASCII: TAB..CR, FS..US, SP. *)
Definition is_space (c : ascii) : bool :=
  let n := nat_of_ascii c in
  ((9 <=? n)%nat && (n <=? 13)%nat) || ((28 <=? n)%nat && (n <=? 32)%nat).

Fixpoint lstrip (s : string) : string :=
  match s with
  | EmptyString => EmptyString
  | String c t => if is_space c then lstrip t else s
  end.

Fixpoint rstrip (s : string) : string :=
  match s with
  | EmptyString => EmptyString
  | String c t =>
      match rstrip t with
      | EmptyString => if is_space c then EmptyString else String c EmptyString
      | t' => String c t'
      end
  end.

(** [s.strip()] on ASCII text. *)
Definition strip (s : string) : string := rstrip (lstrip s).

(** Truth value of a string: non-empty. *)
Definition truthy (s : string) : bool :=
  match s with EmptyString => false | _ => true end.

(** [chr(10).join(lines)]. *)
Definition unlines (l : list string) : string := String.concat nl l.

End Str.

(* ===================================================================== *)
(** * JSON values *)
(* ===================================================================== *)

(** What [json.loads] returns and [json.dumps] takes. An [int] is an
    integer; a [float] is the (finite) rational it denotes, so that [-1] and
    [-1.0] compare equal as they do in Python; an object keeps the order of
    its keys, as a [dict] does. *)
#[local] Set Warnings "-register-all".
Inductive json : Type :=
| JNull
| JBool (b : bool)
| JInt (z : Z)
| JFloat (q : Q)
| JStr (s : string)
| JArr (l : list json)
| JObj (kvs : list (string * json)).

(** [type(v).__name__]. *)
Definition type_name (v : json) : string :=
  match v with
  | JNull => "NoneType"
  | JBool _ => "bool"
  | JInt _ => "int"
  | JFloat _ => "float"
  | JStr _ => "str"
  | JArr _ => "list"
  | JObj _ => "dict"
  end.

(** The value of a number, [None] for anything else. *)
Definition number_value (v : json) : option Q :=
  match v with
  | JInt z => Some (inject_Z z)
  | JFloat q => Some q
  | _ => None
  end.

Module Dict.

Definition t := list (string * json).

(** [d.get(k)], [None] when the key is missing. *)
Fixpoint lookup (k : string) (d : t) : option json :=
  match d with
  | [] => None
  | (k', v) :: rest => if String.eqb k k' then Some v else lookup k rest
  end.

(** [k in d]. *)
Definition mem (k : string) (d : t) : bool :=
  match lookup k d with Some _ => true | None => false end.

(** [d[k] = v]: overwrite in place, or append a new key. *)
Fixpoint set (k : string) (v : json) (d : t) : t :=
  match d with
  | [] => [(k, v)]
  | (k', v') :: rest =>
      if String.eqb k k' then (k, v) :: rest else (k', v') :: set k v rest
  end.

End Dict.

(** Truth value of a JSON value as Python sees the decoded object. *)
Definition json_truthy (v : json) : bool :=
  match v with
  | JNull => false
  | JBool b => b
  | JInt z => negb (Z.eqb z 0)
  | JFloat q => negb (Qeq_bool q 0)
  | JStr s => Str.truthy s
  | JArr l => match l with [] => false | _ => true end
  | JObj kvs => match kvs with [] => false | _ => true end
  end.

(** The [AttributeError] for a method a value does not have. *)
Definition has_no_attribute (v : json) (attr : string) : exn :=
  AttributeError
    (sq ++ type_name v ++ "' object has no attribute '" ++ attr ++ sq)%string.

(** [d.get(k, default)] on a decoded value: only a dictionary has [get]. *)
Definition json_get_default (v : json) (k : string) (default : json)
  : result json :=
  match v with
  | JObj kvs =>
      Ok (match Dict.lookup k kvs with Some x => x | None => default end)
  | _ => Raise (has_no_attribute v "get")
  end.

(** [d.get(k)]. *)
Definition json_get (v : json) (k : string) : result json :=
  json_get_default v k JNull.

(** [d[k]] on a decoded value, for a string [k]. *)
Definition json_item (v : json) (k : string) : result json :=
  match v with
  | JObj kvs =>
      match Dict.lookup k kvs with
      | Some x => Ok x
      | None => Raise (KeyError k)
      end
  | JArr _ => Raise (TypeError "list indices must be integers or slices, not str")
  | JStr _ => Raise (TypeError "string indices must be integers, not 'str'")
  | _ =>
      Raise (TypeError (sq ++ type_name v ++ "' object is not subscriptable")%string)
  end.

(** [d[k] = v] on a decoded value: only a dictionary takes a string key. *)
Definition json_set_item (d : json) (k : string) (v : json) : result json :=
  match d with
  | JObj kvs => Ok (JObj (Dict.set k v kvs))
  | JArr _ => Raise (TypeError "list indices must be integers or slices, not str")
  | _ =>
      Raise (TypeError
               (sq ++ type_name d ++ "' object does not support item assignment")%string)
  end.

(* ===================================================================== *)
(** * The data model: messages and tool calls *)
(* ===================================================================== *)

(** One entry of an assistant message's [tool_calls]. *)
Record ToolCall : Type := mkToolCall {
  tc_id : string;
  tc_type : string;
  tc_name : string;        (* ["function"]["name"] *)
  tc_arguments : string    (* ["function"]["arguments"], JSON text *)
}.

(** An entry of [conversation_history] that is a JSON object, read
    against the chat schema: a content that is a string or [null], tool
    calls that are a list of calls or [null]. The [role] is [None] when
    the key is missing or holds something that is not a string: the code
    only compares it with strings. *)
Record Message : Type := mkMessage {
  role : option string;
  content : field string;
  tool_calls : field (list ToolCall);
  tool_call_id : option string
}.

Definition role_is (r : string) (m : Message) : bool :=
  match role m with
  | Some r' => String.eqb r' r
  | None => false
  end.

(** [msg.get("content", "")]: the default only replaces a missing key. *)
Definition get_content (m : Message) : field string :=
  match content m with
  | Absent => Val ""
  | c => c
  end.

(** Truth value of [msg.get("tool_calls")]. *)
Definition has_tool_calls (m : Message) : bool :=
  match tool_calls m with
  | Val (_ :: _) => true
  | _ => false
  end.

(** ["tool_calls" in msg]. *)
Definition has_tool_calls_key (m : Message) : bool :=
  match tool_calls m with
  | Absent => false
  | _ => true
  end.

(** A JSON value that is not an object. *)
Inductive NonObject : Type :=
| NNull
| NBool (b : bool)
| NInt (z : Z)
| NFloat (q : Q)
| NStr (s : string)
| NArr (l : list json).

Definition json_of_non_object (v : NonObject) : json :=
  match v with
  | NNull => JNull
  | NBool b => JBool b
  | NInt z => JInt z
  | NFloat q => JFloat q
  | NStr s => JStr s
  | NArr l => JArr l
  end.

(** One entry of a [conversation_history] list as it is received: an
    object, or anything else JSON allows. *)
Inductive Entry : Type :=
| Obj (msg : Message)
| NotObj (v : NonObject).

(** What [msg.get(...)] raises on an entry that is not an object. *)
Definition entry_has_no_get (v : NonObject) : exn :=
  has_no_attribute (json_of_non_object v) "get".

Definition system_msg (text : string) : Message :=
  mkMessage (Some "system") (Val text) Absent None.
Definition user_msg (text : string) : Message :=
  mkMessage (Some "user") (Val text) Absent None.
Definition assistant_msg (text : string) : Message :=
  mkMessage (Some "assistant") (Val text) Absent None.
Definition tool_msg (id text : string) : Message :=
  mkMessage (Some "tool") (Val text) Absent (Some id).

(* ===================================================================== *)
(** * The store: inventory rows and interaction rows *)
(* ===================================================================== *)

(** A row of [CarInventory]. Columns are taken as populated, which is what
    [to_dict] relies on; [created_at] is the one column the code tests. *)
Record CarInventory : Type := mkCar {
  car_stock_number : string;
  car_vin : string;
  car_make : string;
  car_model : string;
  car_year : Z;
  car_price : Q;
  car_mileage : Z;
  car_color : string;
  car_description : string;
  car_created_at : option Z
}.

(** A row of [AutoLeadInteractionDetails], as [save_summary_to_db] fills it. *)
Record Interaction : Type := mkInteraction {
  conversation_summary : json;
  sentiment : json;
  product_keywords : json;
  priority_flag : bool;
  next_steps_recommendation : json
}.

(** [db.session]: rows committed so far and rows added but not committed. *)
Record Session : Type := mkSession {
  committed : list Interaction;
  pending : list Interaction
}.

(** A video-search hit, after the fields the code reads are extracted. *)
Record Video : Type := mkVideo {
  video_id : string;
  video_title : string;
  video_description : string;
  video_thumbnail : string
}.

(** [completion.choices[0].message] and [completion.usage]. *)
Record Completion : Type := mkCompletion {
  c_content : option string;
  c_tool_calls : list ToolCall;     (* [None] and [[]] are both [[]] *)
  c_prompt_tokens : Z;
  c_completion_tokens : Z
}.

(** How a completion is requested: with the tool schemas ([/chat]), as a
    JSON object ([generate_conversation_summary]), or plainly. *)
Inductive CompletionMode : Type :=
| WithTools
| JsonObject
| Plain.

(* ===================================================================== *)
(** * The world outside the repository *)
(* ===================================================================== *)

Record World : Type := mkWorld {
  (** [str.lower()] and [str.strip()] on text that is not ASCII: the case
      mapping and the white space of the Unicode tables. *)
  unicode_lower : string -> string;
  unicode_strip : string -> string;
  (** [client.chat.completions.create(...)] followed by [.choices[0].message]. *)
  chat_completion : list Entry -> CompletionMode -> result Completion;
  (** [json.loads] and [json.dumps]. *)
  json_loads : string -> result json;
  json_dumps : json -> string;
  (** [datetime.now(est).strftime(...)], or its fallback. *)
  current_time_formatted : string;
  (** [str(uuid.uuid4())]. *)
  uuid4 : string;
  (** The rows of the inventory table. *)
  inventory : list CarInventory;
  (** SQL [ILIKE]: column value, then pattern. *)
  sql_ilike : string -> string -> bool;
  (** [float(decimal)] and [datetime.isoformat()]. *)
  py_float : Q -> Q;
  isoformat : Z -> string;
  (** [fetch_cars] on a payload outside the tool's schema: what Python's
      dynamic typing and the SQL engine make of it. *)
  fetch_cars_dynamic : json -> result json;
  (** How an f-string renders a value that is not a string. *)
  py_format : json -> string;
  (** Whether importing the video API client fails; then
      [os.getenv("YOUTUBE_API_KEY")]; whether [build(...)] with that key
      fails; and sending the search request with the extraction of its
      items. *)
  video_client_import_failure : option exn;
  youtube_api_key : option string;
  youtube_build_failure : string -> option exn;
  youtube_search : string -> result (list Video);
  (** [calculate_token_cost] followed by [store_request_analytics]. *)
  record_analytics : Completion -> option exn;
  (** Whether [db.session.commit()] of these pending rows fails. *)
  commit_failure : list Interaction -> option exn
}.

(* ===================================================================== *)
(** * Text operations of the runtime *)
(* ===================================================================== *)

(** [s.lower()] and [s.strip()]. *)
Definition py_lower (W : World) (s : string) : string :=
  if Str.is_ascii s then Str.lower s else unicode_lower W s.

Definition py_strip (W : World) (s : string) : string :=
  if Str.is_ascii s then Str.strip s else unicode_strip W s.

(* ===================================================================== *)
(** * End-of-conversation detector (llm_utils.py, lines 253-286) *)
(* ===================================================================== *)

Definition end_phrases : list string :=
  [ "goodbye"; "bye"; "thank you for chatting"; "have a great day";
    "is there anything else"; "anything else i can help"; "end of conversation";
    "conversation is complete"; "conversation has ended"; "wrapping up";
    "summarizing our conversation"; "conversation summary" ].

(** [any(phrase in content for phrase in end_phrases)]. *)
Definition has_end_phrase (lowered : string) : bool :=
  existsb (fun phrase => Str.contains phrase lowered) end_phrases.

(** [conversation_history[-n:]]. *)
Definition last_n {A : Type} (n : nat) (l : list A) : list A :=
  skipn (List.length l - n) l.

(** The [for msg in reversed(recent_messages)] loop, over the reversed
    list; [msg.get] raises on an entry that is not an object. *)
Fixpoint scan_for_end (W : World) (msgs : list Entry) : result bool :=
  match msgs with
  | [] => Ok false
  | Obj msg :: rest =>
      if role_is "assistant" msg then
        match get_content msg with
        | Val c =>
            if has_end_phrase (py_lower W c) then Ok true
            else scan_for_end W rest
        | _ => Raise (none_has_no_attribute "lower")
        end
      else scan_for_end W rest
  | NotObj v :: _ => Raise (entry_has_no_get v)
  end.

Definition detect_end_of_conversation (W : World)
    (conversation_history : list Entry) : result bool :=
  if (List.length conversation_history <? 3)%nat then Ok false
  else scan_for_end W (rev (last_n 5 conversation_history)).

Definition farewell : string :=
  "Thank you for chatting with me today... Have a great day!".

(* ===================================================================== *)
(** * Effects: a state and exception monad *)
(* ===================================================================== *)

(** Calls a request makes, in the order it makes them. *)
Inductive Event : Type :=
| EvCompletion (messages : list Entry) (mode : CompletionMode)
| EvFetchCars (filter_params : json)
| EvFindVideos (make model year : json)
| EvVideoSearch (query : string)
| EvAnalytics
| EvDbAdd (row : Interaction)
| EvDbCommit
| EvDbRollback.

Record St : Type := mkSt {
  trace : list Event;
  session : Session
}.

(** A computation: from a state to an outcome and the state it leaves. An
    exception leaves the state as it was when it was raised. *)
Definition M (A : Type) : Type := St -> result A * St.

Definition ret {A : Type} (a : A) : M A := fun st => (Ok a, st).

Definition raise {A : Type} (e : exn) : M A := fun st => (Raise e, st).

Definition bind {A B : Type} (m : M A) (k : A -> M B) : M B :=
  fun st =>
    match m st with
    | (Ok a, st') => k a st'
    | (Raise e, st') => (Raise e, st')
    end.

(** [try: m  except Exception as e: handler(e)]. *)
Definition try_except {A : Type} (m : M A) (handler : exn -> M A) : M A :=
  fun st =>
    match m st with
    | (Ok a, st') => (Ok a, st')
    | (Raise e, st') => handler e st'
    end.

Definition lift {A : Type} (r : result A) : M A := fun st => (r, st).

Definition emit (ev : Event) : M unit :=
  fun st => (Ok tt, mkSt (trace st ++ [ev]) (session st)).

Definition get_session : M Session := fun st => (Ok (session st), st).

Definition put_session (s : Session) : M unit :=
  fun st => (Ok tt, mkSt (trace st) s).

Declare Scope monad_scope.
Delimit Scope monad_scope with monad.
Notation "x <- m ;; k" := (bind m (fun x => k))
  (at level 61, m at next level, right associativity) : monad_scope.
Notation "m ;;; k" := (bind m (fun _ => k))
  (at level 61, right associativity) : monad_scope.
Local Open Scope monad_scope.

(** One request to the model API. *)
Definition complete (W : World) (messages : list Entry) (mode : CompletionMode)
  : M Completion :=
  emit (EvCompletion messages mode) ;;;
  lift (chat_completion W messages mode).

(* ===================================================================== *)
(** * Inventory lookup: [fetch_cars] (llm_utils.py, lines 15-79) *)
(* ===================================================================== *)

(** [filter_params] when it follows the tool's schema; [None] is a key that
    is not in the dictionary. *)
Record InventoryFilter : Type := mkFilter {
  f_make : option string;
  f_model : option string;
  f_color : option string;
  f_stock_number : option string;
  f_vin : option string;
  f_year : option Q;
  f_max_year : option Q;
  f_price : option Q;
  f_max_price : option Q;
  f_mileage : option Q
}.

(** ["k" in filter_params and filter_params["k"]], for a text key. *)
Definition text_given (o : option string) : option string :=
  match o with
  | Some s => if Str.truthy s then Some s else None
  | None => None
  end.

(** ["k" in filter_params and filter_params["k"] != -1], for a number. *)
Definition number_given (o : option Q) : option Q :=
  match o with
  | Some q => if Qeq_bool q (-1) then None else Some q
  | None => None
  end.

(** A query under construction: the predicates added by [.filter(...)]. *)
Definition Query : Type := list (CarInventory -> bool).

Definition q_filter (q : Query) (p : CarInventory -> bool) : Query := q ++ [p].

(** [.filter(pred)] guarded by an [if]. *)
Definition filter_when {A : Type} (o : option A) (q : Query)
    (p : A -> CarInventory -> bool) : Query :=
  match o with
  | Some a => q_filter q (p a)
  | None => q
  end.

(** [query.all()]. *)
Definition q_all (W : World) (q : Query) : list CarInventory :=
  filter (fun c => forallb (fun p => p c) q) (inventory W).

(** The pattern [f"%{x}%"]. *)
Definition like_pattern (x : string) : string := ("%" ++ x ++ "%")%string.

Definition build_query (W : World) (fp : InventoryFilter) : Query :=
  let query := [] in
  let query := filter_when (text_given (f_make fp)) query
    (fun x c => sql_ilike W (car_make c) (like_pattern x)) in
  let query := filter_when (text_given (f_model fp)) query
    (fun x c => sql_ilike W (car_model c) (like_pattern x)) in
  let query := filter_when (text_given (f_color fp)) query
    (fun x c => sql_ilike W (car_color c) (like_pattern x)) in
  let query := filter_when (text_given (f_stock_number fp)) query
    (fun x c => String.eqb (car_stock_number c) x) in
  let query := filter_when (text_given (f_vin fp)) query
    (fun x c => String.eqb (car_vin c) x) in
  let query := filter_when (number_given (f_year fp)) query
    (fun x c => Qle_bool x (inject_Z (car_year c))) in
  let query := filter_when (number_given (f_max_year fp)) query
    (fun x c => Qle_bool (inject_Z (car_year c)) x) in
  let query := filter_when (number_given (f_price fp)) query
    (fun x c => Qle_bool x (car_price c)) in
  let query := filter_when (number_given (f_max_price fp)) query
    (fun x c => Qle_bool (car_price c) x) in
  let query := filter_when (number_given (f_mileage fp)) query
    (fun x c => Qle_bool (inject_Z (car_mileage c)) x) in
  query.

Definition to_dict (W : World) (car : CarInventory) : json :=
  JObj [ ("stock_number", JStr (car_stock_number car));
         ("vin", JStr (car_vin car));
         ("make", JStr (car_make car));
         ("model", JStr (car_model car));
         ("year", JInt (car_year car));
         ("price", JFloat (py_float W (car_price car)));
         ("mileage", JInt (car_mileage car));
         ("color", JStr (car_color car));
         ("description", JStr (car_description car));
         ("created_at", match car_created_at car with
                        | Some t => JStr (isoformat W t)
                        | None => JNull
                        end) ].

(** The rows [fetch_cars] selects, and the listing it returns. *)
Definition fetch_cars_rows (W : World) (fp : InventoryFilter)
  : list CarInventory :=
  q_all W (build_query W fp).

Definition fetch_cars (W : World) (fp : InventoryFilter) : list json :=
  map (to_dict W) (fetch_cars_rows W fp).

(** ** [fetch_cars] as the dispatcher calls it, on decoded JSON *)

Definition text_key (d : Dict.t) (k : string) : option (option string) :=
  match Dict.lookup k d with
  | None => Some None
  | Some (JStr s) => Some (Some s)
  | Some _ => None
  end.

Definition number_key (d : Dict.t) (k : string) : option (option Q) :=
  match Dict.lookup k d with
  | None => Some None
  | Some v =>
      match number_value v with
      | Some q => Some (Some q)
      | None => None
      end
  end.

Definition obind {A B : Type} (o : option A) (k : A -> option B) : option B :=
  match o with
  | Some a => k a
  | None => None
  end.

(** The payload read against the tool's schema: a dictionary whose text
    keys hold strings and whose numeric keys hold numbers. *)
Definition typed_filter (filter_params : json) : option InventoryFilter :=
  match filter_params with
  | JObj d =>
      obind (text_key d "make") (fun make =>
      obind (text_key d "model") (fun model =>
      obind (text_key d "color") (fun color =>
      obind (text_key d "stock_number") (fun stock_number =>
      obind (text_key d "vin") (fun vin =>
      obind (number_key d "year") (fun year =>
      obind (number_key d "max_year") (fun max_year =>
      obind (number_key d "price") (fun price =>
      obind (number_key d "max_price") (fun max_price =>
      obind (number_key d "mileage") (fun mileage =>
      Some (mkFilter make model color stock_number vin
                     year max_year price max_price mileage)))))))))))
  | _ => None
  end.

Definition fetch_cars_tool (W : World) (filter_params : json) : M json :=
  emit (EvFetchCars filter_params) ;;;
  match typed_filter filter_params with
  | Some fp => ret (JArr (fetch_cars W fp))
  | None => lift (fetch_cars_dynamic W filter_params)
  end.

(* ===================================================================== *)
(** * Review videos: [find_car_review_videos] (llm_utils.py, lines 288-352) *)
(* ===================================================================== *)

(** [f"{x}"]. *)
Definition fmt (W : World) (v : json) : string :=
  match v with
  | JStr s => s
  | _ => py_format W v
  end.

Definition video_json (v : Video) : json :=
  JObj [ ("id", JStr (video_id v));
         ("title", JStr (video_title v));
         ("description", JStr (video_description v));
         ("thumbnail", JStr (video_thumbnail v));
         ("url", JStr ("https://www.youtube.com/embed/" ++ video_id v)%string) ].

Definition videos_error (reason : string) : json :=
  JObj [ ("videos", JArr []); ("error", JStr reason) ].

(** The result of the [except] branch. *)
Definition search_failed (e : exn) : json :=
  videos_error ("Failed to search for car review videos: " ++ exn_text e)%string.

Definition find_car_review_videos (W : World) (car_make car_model year : json)
  : M json :=
  emit (EvFindVideos car_make car_model year) ;;;
  match video_client_import_failure W with
  | Some e => ret (search_failed e)
  | None =>
      let api_key := match youtube_api_key W with Some k => k | None => "" end in
      if negb (Str.truthy api_key) then
        ret (videos_error "YouTube API key not configured. Please set the YOUTUBE_API_KEY environment variable.")
      else
        match youtube_build_failure W api_key with
        | Some e => ret (search_failed e)
        | None =>
            let search_query :=
              (fmt W car_make ++ " " ++ fmt W car_model)%string in
            let search_query :=
              if json_truthy year
              then (search_query ++ " " ++ fmt W year)%string
              else search_query in
            let search_query := (search_query ++ " review")%string in
            emit (EvVideoSearch search_query) ;;;
            match youtube_search W search_query with
            | Ok items =>
                ret (JObj [ ("videos", JArr (map video_json items)) ])
            | Raise e => ret (search_failed e)
            end
        end
  end.

(* ===================================================================== *)
(** * Persisting a summary: [save_summary_to_db] (llm_utils.py, lines 187-216) *)
(* ===================================================================== *)

Definition db_add (row : Interaction) : M unit :=
  emit (EvDbAdd row) ;;;
  s <- get_session ;;
  put_session (mkSession (committed s) (pending s ++ [row])).

Definition db_commit (W : World) : M unit :=
  emit EvDbCommit ;;;
  s <- get_session ;;
  match commit_failure W (pending s) with
  | Some e => raise e
  | None => put_session (mkSession (committed s ++ pending s) [])
  end.

Definition db_rollback : M unit :=
  emit EvDbRollback ;;;
  s <- get_session ;;
  put_session (mkSession (committed s) []).

(** [v == "text"]. *)
Definition json_is_str (v : json) (text : string) : bool :=
  match v with
  | JStr s => String.eqb s text
  | _ => false
  end.

Definition save_summary_to_db (W : World) (summary_data : json) : M bool :=
  try_except
    (summary <- lift (json_item summary_data "summary") ;;
     sentiment <- lift (json_item summary_data "sentiment") ;;
     keywords <- lift (json_item summary_data "keywords") ;;
     insights <- lift (json_item summary_data "insights") ;;
     urgency <- lift (json_get insights "urgency") ;;
     insights' <- lift (json_item summary_data "insights") ;;
     notes <- lift (json_get_default insights' "additional_notes" (JStr "")) ;;
     let new_interaction :=
       mkInteraction summary sentiment keywords
                     (json_is_str urgency "high") notes in
     db_add new_interaction ;;;
     db_commit W ;;;
     ret true)
    (fun e => db_rollback ;;; ret false).

(* ===================================================================== *)
(** * Summary generation (llm_utils.py, lines 81-185) *)
(* ===================================================================== *)

(** The instruction prompt of [generate_conversation_summary]
    (llm_utils.py, lines 107-133), line by line. *)
Definition summary_prompt_content : string :=
  Str.unlines [
    EmptyString;
    "        You are an expert at analyzing car dealership conversations and creating concise, informative summaries.";
    "        ";
    "        Analyze the provided conversation and create a summary with the following components:";
    "        ";
    "        1. Overall sentiment analysis (positive, neutral, or negative)";
    "        2. Key tags/keywords extracted from the conversation (e.g., 'new model', 'financing', 'trade-in', 'service appointment')";
    "        3. A concise summary of the main discussion points and any relevant customer information";
    "        4. A follow-up routing recommendation (Sales, Service, Management, HR, Finance, or Parts)";
    "        5. Additional insights such as urgency or potential upsell opportunities";
    "        ";
    "        Format your response as a JSON object with the following structure:";
    "        {";
    ("            " ++ dq ++ "sentiment" ++ dq ++ ": " ++ dq ++ "positive/neutral/negative" ++ dq ++ ",")%string;
    ("            " ++ dq ++ "keywords" ++ dq ++ ": [" ++ dq ++ "keyword1" ++ dq ++ ", " ++ dq ++ "keyword2" ++ dq ++ ", ...],")%string;
    ("            " ++ dq ++ "summary" ++ dq ++ ": " ++ dq ++ "Concise summary text" ++ dq ++ ",")%string;
    ("            " ++ dq ++ "department" ++ dq ++ ": " ++ dq ++ "Sales/Service/Management/HR/Finance/Parts" ++ dq ++ ",")%string;
    ("            " ++ dq ++ "insights" ++ dq ++ ": {")%string;
    ("                " ++ dq ++ "urgency" ++ dq ++ ": " ++ dq ++ "high/medium/low" ++ dq ++ ",")%string;
    ("                " ++ dq ++ "upsell_opportunity" ++ dq ++ ": true/false,")%string;
    ("                " ++ dq ++ "customer_interest" ++ dq ++ ": " ++ dq ++ "high/medium/low" ++ dq ++ ",")%string;
    ("                " ++ dq ++ "additional_notes" ++ dq ++ ": " ++ dq ++ "Any other relevant information" ++ dq)%string;
    "            }";
    "        }";
    "        ";
    "        Be thorough but concise in your analysis.";
    "        "
  ].

Definition summary_prompt : Message := system_msg summary_prompt_content.

(** The summary returned when anything in the [try] block raises. *)
Definition default_summary (conversation_id : json) (e : exn) : json :=
  JObj [ ("conversation_id", conversation_id);
         ("sentiment", JStr "neutral");
         ("keywords", JArr [JStr "error"]);
         ("summary", JStr "Error generating summary. Please try again.");
         ("department", JStr "Sales");
         ("insights",
          JObj [ ("urgency", JStr "low");
                 ("upsell_opportunity", JBool false);
                 ("customer_interest", JStr "unknown");
                 ("additional_notes", JStr ("Error: " ++ exn_text e)%string) ]) ].

(** [json.loads(response.choices[0].message.content)]. *)
Definition loads_content (W : World) (c : option string) : result json :=
  match c with
  | Some text => json_loads W text
  | None =>
      Raise (TypeError
               "the JSON object must be str, bytes or bytearray, not NoneType")
  end.

Definition store_analytics (W : World) (response : Completion) : M unit :=
  emit EvAnalytics ;;;
  match record_analytics W response with
  | Some e => raise e
  | None => ret tt
  end.

(** The turns kept for analysis: user and assistant messages, without the
    assistant messages that carry a [tool_calls] key. *)
Definition kept_for_summary (msg : Message) : bool :=
  (role_is "user" msg || role_is "assistant" msg) &&
  negb (role_is "assistant" msg && has_tool_calls_key msg).

(** The list comprehension of lines 98-102: it reads every entry with
    [msg.get], from the first on, and so raises at the first entry that is
    not an object. *)
Fixpoint filter_for_summary (conversation_history : list Entry)
  : result (list Entry) :=
  match conversation_history with
  | [] => Ok []
  | Obj msg :: rest =>
      match filter_for_summary rest with
      | Ok kept => Ok (if kept_for_summary msg then Obj msg :: kept else kept)
      | Raise e => Raise e
      end
  | NotObj v :: _ => Raise (entry_has_no_get v)
  end.

(** The filter runs before the [try] of line 140: what it raises reaches
    the caller. *)
Definition generate_conversation_summary (W : World)
    (conversation_history : list Entry) (conversation_id : json) : M json :=
  let conversation_id :=
    if json_truthy conversation_id then conversation_id
    else JStr (uuid4 W) in
  filtered_history <- lift (filter_for_summary conversation_history) ;;
  let messages_for_analysis := Obj summary_prompt :: filtered_history in
  try_except
    (response <- complete W messages_for_analysis JsonObject ;;
     summary_json <- lift (loads_content W (c_content response)) ;;
     summary_json <-
       lift (json_set_item summary_json "conversation_id" conversation_id) ;;
     store_analytics W response ;;;
     save_summary_to_db W summary_json ;;;
     ret summary_json)
    (fun e => ret (default_summary conversation_id e)).

(* ===================================================================== *)
(** * HTTP requests and responses *)
(* ===================================================================== *)

(** The [conversation_history] key of a request body. *)
Inductive HistoryField : Type :=
| HistAbsent
| HistNotList
| HistList (l : list Entry).

(** A request body that is a JSON object. *)
Record RequestObject : Type := mkRequest {
  r_message : option json;
  r_history : HistoryField;
  r_conversation_id : option json;
  r_other_keys : bool
}.

(** What [request.get_json(force=True)] yields. *)
Inductive Body : Type :=
| BodyUnparsable (err : string)   (* the call raises *)
| BodyFalsy                       (* [null], [false], [0], an empty string or list *)
| BodyNotDict (type : string)     (* a non-empty list, a string, a number *)
| BodyDict (o : RequestObject).

(** Truth value of the decoded dictionary: it has a key. *)
Definition dict_truthy (o : RequestObject) : bool :=
  match r_message o with None => false | Some _ => true end ||
  match r_history o with HistAbsent => false | _ => true end ||
  match r_conversation_id o with None => false | Some _ => true end ||
  r_other_keys o.

Inductive Response : Type :=
| ErrorResponse (status : Z) (error : string)
| ChatResponse (chat_response : string) (conversation_history : list Entry)
               (tool_call_detected : bool) (summary : json)
| ToolResultResponse (final_response : string)
                     (final_conversation_history : list Entry) (summary : json)
| SummaryResponse (summary : json).

Definition status_of (r : Response) : Z :=
  match r with
  | ErrorResponse status _ => status
  | _ => 200
  end.

(** [except Exception as e: return jsonify({"error": str(e)}), 500]. *)
Definition at_request_boundary (body : M Response) : M Response :=
  try_except body (fun e => ret (ErrorResponse 500 (exn_text e))).

(** The decoded body as the routes use it: [data.get] needs a dictionary. *)
Definition with_body (data : Body) (k : RequestObject -> M Response)
  : M Response :=
  match data with
  | BodyUnparsable err => raise (ExternalError err)
  | BodyFalsy => ret (ErrorResponse 400 "Missing JSON body")
  | BodyNotDict type =>
      raise (AttributeError
               (sq ++ type ++ "' object has no attribute 'get'")%string)
  | BodyDict o =>
      if dict_truthy o then k o
      else ret (ErrorResponse 400 "Missing JSON body")
  end.

(* ===================================================================== *)
(** * After a terminal assistant message: detection and summary *)
(* ===================================================================== *)

(** The search for a conversation id among the system messages. The
    membership test is outside the [try]; decoding is inside a bare
    [except] that moves on to the next message. *)
Fixpoint find_conversation_id (W : World) (h : list Entry) : result json :=
  match h with
  | [] => Ok JNull
  | NotObj v :: _ => Raise (entry_has_no_get v)
  | Obj msg :: rest =>
      if role_is "system" msg then
        match get_content msg with
        | Val c =>
            if Str.contains "conversation_id" c then
              match json_loads W c with
              | Ok v =>
                  match json_get v "conversation_id" with
                  | Ok cid => Ok cid
                  | Raise _ => find_conversation_id W rest
                  end
              | Raise _ => find_conversation_id W rest
              end
            else find_conversation_id W rest
        | _ => Raise none_not_iterable
        end
      else find_conversation_id W rest
  end.

Definition maybe_summarize (W : World) (conversation_history : list Entry)
  : M json :=
  ended <- lift (detect_end_of_conversation W conversation_history) ;;
  if ended : bool then
    conversation_id <- lift (find_conversation_id W conversation_history) ;;
    generate_conversation_summary W conversation_history conversation_id
  else ret JNull.

(* ===================================================================== *)
(** * [POST /chat] (all_routes.py, lines 101-316) *)
(* ===================================================================== *)

(** The persona prompt of [chat] (all_routes.py, lines 127-183), line by
    line. *)
Definition system_message_content : string :=
  Str.unlines [
    " ";
    "                You are Patricia, a knowledgeable and friendly customer support agent at Nissan of Hendersonville, a family-owned and operated Nissan dealership in Hendersonville, North Carolina.";
    "                ";
    "                IMPORTANT: You must ONLY provide information that is explicitly stated in this system message. DO NOT make up or guess any information about the dealership, including:";
    "                - Business hours";
    "                - Address";
    "                - Phone number";
    "                - Website";
    "                - Staff names";
    "                - Available vehicles";
    "                - Pricing";
    "                ";
    "                If asked for information not provided in this message, politely inform the customer that you need to verify that information and suggest they call the dealership directly.";
    "                ";
    "                Your primary responsibilities:";
    "                - Help customers find the perfect Nissan vehicle that meets their needs and budget";
    "                - Provide accurate information about Nissan models, features, pricing, and availability";
    "                - Assist with scheduling test drives and answering questions about the car buying process";
    "                - Represent the dealership with professionalism and enthusiasm";
    "                - Guide customers that need to schedule a service appointment";
    "                - Handle customer complaints and provide solutions";
    "                ";
    "                Company Information (VERIFY ALL INFORMATION BEFORE PROVIDING):";
    "                - Name: Nissan of Hendersonville";
    "                - Address: 1340 Spartanburg Hwy, Hendersonville, NC 28792";
    "                - Phone: +1 (828) 697-2222";
    "                - Website: https://www.nissanofhendersonville.com";
    "                ";
    "                Business Hours (VERIFY ALL INFORMATION BEFORE PROVIDING):";
    "                - Monday-Saturday: 9 AM - 7 PM";
    "                - Sunday: Closed";
    "                ";
    "                When customers ask about inventory, use the fetch_cars function to provide accurate, up-to-date information. Always supply default values for any missing filters: use -1 for numeric fields and an empty string for text fields.";
    EmptyString;
    "                If a customer shows interest in a specific car or asks to see reviews or videos about a car, use the find_car_review_videos function to provide a list of car review videos on YouTube. This function requires the car_make and car_model parameters, and optionally accepts a year parameter.";
    "                ";
    "                Remember that you are representing a family-owned business that prides itself on customer service and helping customers find the perfect car. Be helpful, friendly, and professional in all interactions.";
    "                ";
    "                NEVER schedule appointments for days when the dealership is closed (like Sundays).";
    "                NEVER provide information about test drives without verifying the customer's contact information first.";
    "                NEVER make up information about the dealership or its staff.";
    "                ";
    "                IMPORTANT - Time Awareness:";
    "                You will receive a message with the current time in EST. Use this information to:";
    "                1. Determine if the dealership is currently open or closed";
    "                2. Avoid scheduling appointments outside of business hours";
    "                3. Provide accurate information about when the dealership will be open next";
    "                4. Consider the day of the week when discussing availability";
    "                5. Dont mention the service hours or business hours unless asked or the customer asks about booking an appointment or test drive.";
    "                ";
    "                IMPORTANT - End of Conversation:";
    "                When you detect that the conversation is coming to an end (e.g., the customer says goodbye, thanks you, or indicates they have no more questions), ";
    "                you should explicitly signal the end of the conversation with a clear closing message such as:";
    ("                " ++ dq ++ "Thank you for chatting with me today. I'm glad I could help you with your questions about Nissan vehicles. Have a great day!" ++ dq)%string;
    "                ";
    "                This helps our system know when to generate a summary of the conversation.";
    "                "
  ].

Definition system_message : Message := system_msg system_message_content.

Definition persona_marker : string := "You are Patricia".
Definition time_marker : string := "Current time:".

(** [any(msg.get("role") == "system" and marker in msg.get("content", "")
    for msg in conversation_history)]: stops at the first hit, and raises
    when an entry before it is not an object or is a system message that
    holds [null] as content. *)
Fixpoint any_system_with (marker : string) (h : list Entry) : result bool :=
  match h with
  | [] => Ok false
  | NotObj v :: _ => Raise (entry_has_no_get v)
  | Obj msg :: rest =>
      if role_is "system" msg then
        match get_content msg with
        | Val c =>
            if Str.contains marker c then Ok true
            else any_system_with marker rest
        | _ => Raise none_not_iterable
        end
      else any_system_with marker rest
  end.

Definition time_context_message (now : string) : Message :=
  system_msg ("Current time: " ++ now)%string.

Definition is_empty {A : Type} (l : list A) : bool :=
  match l with [] => true | _ => false end.

(** The system-context insertion step (lines 187-228); [now] is the
    formatted wall-clock time. *)
Definition ensure_system_context (now : string)
    (conversation_history : list Entry) : result (list Entry) :=
  match any_system_with persona_marker conversation_history with
  | Raise e => Raise e
  | Ok has_system_message =>
      let conversation_history :=
        if is_empty conversation_history || negb has_system_message
        then Obj system_message :: conversation_history
        else conversation_history in
      match any_system_with time_marker conversation_history with
      | Raise e => Raise e
      | Ok has_time_context =>
          Ok (if negb has_time_context
              then conversation_history ++ [Obj (time_context_message now)]
              else conversation_history)
      end
  end.

(** [data.get("message", "").strip()]: only a string has [strip]. *)
Definition read_message (W : World) (o : RequestObject) : result string :=
  match r_message o with
  | None => Ok (py_strip W "")
  | Some (JStr s) => Ok (py_strip W s)
  | Some v => Raise (has_no_attribute v "strip")
  end.

(** The reply text of [/chat] for a completion. *)
Definition chat_reply (W : World) (message : Completion) : string :=
  match c_tool_calls message with
  | tool_call :: _ =>
      match json_loads W (tc_arguments tool_call) with
      | Ok _ => "Processing your request..."
      | Raise _ => "Error parsing tool arguments."
      end
  | [] => match c_content message with Some s => s | None => "" end
  end.

Definition chat_assistant_message (W : World) (message : Completion) : Message :=
  mkMessage (Some "assistant") (Val (chat_reply W message))
            (match c_tool_calls message with
             | [] => Absent
             | calls => Val calls
             end)
            None.

Definition chat_body (W : World) (data : Body) : M Response :=
  with_body data (fun o =>
    user_message <- lift (read_message W o) ;;
    let conversation_history :=
      match r_history o with
      | HistList l => l
      | _ => []
      end in
    if negb (Str.truthy user_message) then
      ret (ErrorResponse 400 "No 'message' provided")
    else
      conversation_history <-
        lift (ensure_system_context (current_time_formatted W)
                                    conversation_history) ;;
      message <- complete W conversation_history WithTools ;;
      let tool_call_detected := negb (is_empty (c_tool_calls message)) in
      let assistant_response := chat_reply W message in
      let conversation_history :=
        conversation_history ++ [Obj (chat_assistant_message W message)] in
      summary <- maybe_summarize W conversation_history ;;
      ret (ChatResponse assistant_response conversation_history
                        tool_call_detected summary)).

Definition chat (W : World) (data : Body) : M Response :=
  at_request_boundary (chat_body W data).

(* ===================================================================== *)
(** * [POST /tool-call-result] (all_routes.py, lines 318-520) *)
(* ===================================================================== *)

(** The most recent assistant message with a non-empty [tool_calls]
    (lines 336-341): the loop over the reversed list, which raises at an
    entry that is not an object when it reaches one. *)
Fixpoint search_tool_call_message (reversed : list Entry)
  : result (option Message) :=
  match reversed with
  | [] => Ok None
  | Obj msg :: rest =>
      if role_is "assistant" msg && has_tool_calls msg then Ok (Some msg)
      else search_tool_call_message rest
  | NotObj v :: _ => Raise (entry_has_no_get v)
  end.

Definition find_tool_call_message (conversation_history : list Entry)
  : result (option Message) :=
  search_tool_call_message (rev conversation_history).

Definition calls_of (msg : Message) : list ToolCall :=
  match tool_calls msg with
  | Val calls => calls
  | _ => []
  end.

Definition tool_response_message (W : World) (tool_call_id : string)
    (result : json) : Message :=
  tool_msg tool_call_id (json_dumps W result).

(** The names the dispatcher knows. *)
Definition registered (func_name : string) : bool :=
  String.eqb func_name "fetch_cars" ||
  String.eqb func_name "find_car_review_videos".

(** What one tool call runs, once its arguments are decoded. *)
Definition run_tool (W : World) (func_name : string) (func_args : json)
  : M json :=
  if String.eqb func_name "fetch_cars" then fetch_cars_tool W func_args
  else
    car_make <- lift (json_get func_args "car_make") ;;
    car_model <- lift (json_get func_args "car_model") ;;
    year <- lift (json_get func_args "year") ;;
    find_car_review_videos W car_make car_model year.

(** The loop over the tool calls (lines 443-475). It ends the request with
    a 400 at the first call it cannot decode or does not know ([inl]), and
    otherwise yields the history with one tool message per call ([inr]). *)
Fixpoint process_tool_calls (W : World) (calls : list ToolCall)
    (conversation_history : list Entry) : M (Response + list Entry) :=
  match calls with
  | [] => ret (inr conversation_history)
  | tool_call :: rest =>
      let func_name := tc_name tool_call in
      let args_str := tc_arguments tool_call in
      let tool_call_id := tc_id tool_call in
      match json_loads W args_str with
      | Raise _ => ret (inl (ErrorResponse 400 "Error parsing tool arguments"))
      | Ok func_args =>
          if registered func_name then
            result <- run_tool W func_name func_args ;;
            process_tool_calls W rest
              (conversation_history
                 ++ [Obj (tool_response_message W tool_call_id result)])
          else
            ret (inl (ErrorResponse 400
                        ("Unknown tool '" ++ func_name ++ "' called")%string))
      end
  end.

(** The final completion, offered no tools, and what follows it
    (lines 477-515, and again lines 401-439). *)
Definition finalize (W : World) (conversation_history : list Entry)
  : M Response :=
  message <- complete W conversation_history Plain ;;
  let final_response :=
    match c_content message with Some s => s | None => "" end in
  let conversation_history :=
    conversation_history ++ [Obj (assistant_msg final_response)] in
  summary <- maybe_summarize W conversation_history ;;
  ret (ToolResultResponse final_response conversation_history summary).

Definition review_keywords : list string :=
  [ "review"; "reviews"; "video"; "videos"; "watch"; "see"; "look at" ].

Definition fallback_filter : json :=
  JObj [ ("make", JStr "Nissan"); ("model", JStr "");
         ("year", JInt (-1)); ("max_year", JInt (-1));
         ("price", JInt (-1)); ("max_price", JInt (-1));
         ("mileage", JInt (-1)); ("color", JStr "");
         ("stock_number", JStr ""); ("vin", JStr "") ].

(** The branch for a message without tool calls (lines 346-441). *)
Definition fallback (W : World) (tool_call_message : Message)
    (conversation_history : list Entry) : M Response :=
  match content tool_call_message with
  | Val "Processing your request..." =>
      let message_content := py_lower W "Processing your request..." in
      result <-
        (if existsb (fun keyword => Str.contains keyword message_content)
                    review_keywords
         then find_car_review_videos W (JStr "Nissan") (JStr "Kicks")
                                     (JInt 2025)
         else fetch_cars_tool W fallback_filter) ;;
      finalize W
        (conversation_history
           ++ [Obj (tool_response_message W "fallback_tool_call" result)])
  | _ => ret (ErrorResponse 400 "No tool call found in conversation history")
  end.

Definition tool_call_result_body (W : World) (data : Body) : M Response :=
  with_body data (fun o =>
    match r_history o with
    | HistNotList =>
        ret (ErrorResponse 400 "Invalid conversation history format")
    | hist =>
        let conversation_history :=
          match hist with HistList l => l | _ => [] end in
        found <- lift (find_tool_call_message conversation_history) ;;
        match found with
        | None =>
            ret (ErrorResponse 400
                   "No assistant message found in conversation history")
        | Some tool_call_message =>
            if negb (has_tool_calls tool_call_message) then
              fallback W tool_call_message conversation_history
            else
              outcome <- process_tool_calls W (calls_of tool_call_message)
                                            conversation_history ;;
              match outcome with
              | inl response => ret response
              | inr conversation_history => finalize W conversation_history
              end
        end
    end).

Definition tool_call_result (W : World) (data : Body) : M Response :=
  at_request_boundary (tool_call_result_body W data).

(* ===================================================================== *)
(** * [POST /generate-summary] (all_routes.py, lines 522-551) *)
(* ===================================================================== *)

Definition generate_summary_body (W : World) (data : Body) : M Response :=
  with_body data (fun o =>
    match r_history o with
    | HistNotList =>
        ret (ErrorResponse 400 "Invalid conversation history format")
    | hist =>
        let conversation_history :=
          match hist with HistList l => l | _ => [] end in
        let conversation_id :=
          match r_conversation_id o with Some v => v | None => JNull end in
        summary <- generate_conversation_summary W conversation_history
                                                 conversation_id ;;
        ret (SummaryResponse summary)
    end).

Definition generate_summary (W : World) (data : Body) : M Response :=
  at_request_boundary (generate_summary_body W data).

(** The state a request starts from: nothing called yet. *)
Definition fresh (s : Session) : St := mkSt [] s.
Definition empty_session : Session := mkSession [] [].

(* ===================================================================== *)
(** * Sample worlds, for concrete runs *)
(* ===================================================================== *)

Module Sample.

Definition car_a : CarInventory :=
  mkCar "ABC123" "1N4BL4BV0LC100001" "Nissan" "Altima" 2021 (24500 # 1)
        30500 "White" "One owner" (Some 1700000000%Z).

Definition car_b : CarInventory :=
  mkCar "ABC1234" "1N4BL4BV0LC100002" "Nissan" "Kicks" 2025 (22990 # 1)
        12 "Red" "New arrival" None.

(** Case-insensitive containment of the pattern without its two [%]. *)
Definition ilike (value pattern : string) : bool :=
  Str.contains
    (Str.lower (String.substring 1 (String.length pattern - 2) pattern))
    (Str.lower value).

(** Two payloads of tool calls, as JSON text. *)
Definition stock_filter_text : string :=
  ("{" ++ dq ++ "stock_number" ++ dq ++ ": " ++ dq ++ "ABC123" ++ dq ++ "}")%string.

Definition kicks_review_text : string :=
  ("{" ++ dq ++ "car_make" ++ dq ++ ": " ++ dq ++ "Nissan" ++ dq ++ ", "
       ++ dq ++ "car_model" ++ dq ++ ": " ++ dq ++ "Kicks" ++ dq ++ ", "
       ++ dq ++ "year" ++ dq ++ ": 2025}")%string.

(** Decodes the payloads the sample runs send: an empty object and the
    two above. *)
Definition loads (text : string) : result json :=
  if String.eqb text "{}" then Ok (JObj [])
  else if String.eqb text stock_filter_text then
    Ok (JObj [("stock_number", JStr "ABC123")])
  else if String.eqb text kicks_review_text then
    Ok (JObj [("car_make", JStr "Nissan"); ("car_model", JStr "Kicks");
              ("year", JInt 2025)])
  else Raise (ExternalError "Expecting value: line 1 column 1 (char 0)").

(** [f"{v}"] for the values the sample runs format. *)
Definition format (v : json) : string :=
  match v with
  | JNull => "None"
  | JBool true => "True"
  | JBool false => "False"
  | JInt z => NilZero.string_of_int (Z.to_int z)
  | JStr s => s
  | _ => "..."
  end.

Definition dumps (v : json) : string :=
  match v with
  | JArr [] => "[]"
  | JArr _ => "[...]"
  | JObj [] => "{}"
  | _ => "{...}"
  end.

(** The model answers in text, and with an empty object when asked for
    JSON; the store accepts every commit; no video API key is set. *)
Definition world : World := {|
  unicode_lower := fun s => s;
  unicode_strip := fun s => s;
  chat_completion := fun _ mode =>
    match mode with
    | JsonObject => Ok (mkCompletion (Some "{}") [] 40 8)
    | _ => Ok (mkCompletion (Some "Here is what I found.") [] 25 6)
    end;
  json_loads := loads;
  json_dumps := dumps;
  current_time_formatted := "2025-03-01 10:15:00 EST";
  uuid4 := "6f1c2f0e-8a53-4c0b-9c56-2f1f5d0e7a11";
  inventory := [car_a; car_b];
  sql_ilike := ilike;
  py_float := fun q => q;
  isoformat := fun _ => "2023-11-14T22:13:20";
  fetch_cars_dynamic := fun _ =>
    Raise (TypeError "argument of type 'int' is not iterable");
  py_format := format;
  video_client_import_failure := None;
  youtube_api_key := None;
  youtube_build_failure := fun _ => None;
  youtube_search := fun _ => Ok [];
  record_analytics := fun _ => None;
  commit_failure := fun _ => None
|}.

(** A well-formed summary, as the model is asked to produce it. *)
Definition good_summary : json :=
  JObj [ ("sentiment", JStr "positive");
         ("keywords", JArr [JStr "test drive"]);
         ("summary", JStr "Customer asked about a test drive.");
         ("department", JStr "Sales");
         ("insights",
          JObj [ ("urgency", JStr "high");
                 ("upsell_opportunity", JBool true);
                 ("customer_interest", JStr "high");
                 ("additional_notes", JStr "Call back today.") ]) ].

(** The model returns a well-formed summary, and the database refuses
    the commit. *)
Definition world_db_down : World := {|
  unicode_lower := unicode_lower world;
  unicode_strip := unicode_strip world;
  chat_completion := fun _ _ => Ok (mkCompletion (Some "SUMMARY") [] 40 8);
  json_loads := fun _ => Ok good_summary;
  json_dumps := dumps;
  current_time_formatted := current_time_formatted world;
  uuid4 := uuid4 world;
  inventory := inventory world;
  sql_ilike := ilike;
  py_float := fun q => q;
  isoformat := isoformat world;
  fetch_cars_dynamic := fetch_cars_dynamic world;
  py_format := py_format world;
  video_client_import_failure := None;
  youtube_api_key := None;
  youtube_build_failure := fun _ => None;
  youtube_search := fun _ => Ok [];
  record_analytics := fun _ => None;
  commit_failure := fun _ =>
    Some (ExternalError "could not connect to server")
|}.

(** The model API cannot be reached. *)
Definition world_api_down : World := {|
  unicode_lower := unicode_lower world;
  unicode_strip := unicode_strip world;
  chat_completion := fun _ _ => Raise (ExternalError "Connection error.");
  json_loads := loads;
  json_dumps := dumps;
  current_time_formatted := current_time_formatted world;
  uuid4 := uuid4 world;
  inventory := inventory world;
  sql_ilike := ilike;
  py_float := fun q => q;
  isoformat := isoformat world;
  fetch_cars_dynamic := fetch_cars_dynamic world;
  py_format := py_format world;
  video_client_import_failure := None;
  youtube_api_key := None;
  youtube_build_failure := fun _ => None;
  youtube_search := fun _ => Ok [];
  record_analytics := fun _ => None;
  commit_failure := fun _ => None
|}.

Definition pending_call (id name : string) : ToolCall :=
  mkToolCall id "function" name "{}".

Definition request (message : option json) (h : list Entry) : Body :=
  BodyDict (mkRequest message (HistList h) None false).

End Sample.

(* ===================================================================== *)
(** * Inventory search: [search_car_inventory] (sql_helpers.py, lines 4-44) *)
(* ===================================================================== *)

(** The [filters] dictionary; [None] is a key that is missing or [null]. *)
Record SearchFilters : Type := mkSearchFilters {
  s_make : option string;
  s_model : option string;
  s_min_price : option Q;
  s_max_price : option Q;
  s_year : option Z
}.

(** [filters.get("year")] as a condition: a year other than zero. *)
Definition year_given (o : option Z) : option Z :=
  match o with
  | Some z => if Z.eqb z 0 then None else Some z
  | None => None
  end.

(** The [or_] of the three [ilike] tests on the search text. *)
Definition text_hit (W : World) (search_query : string) (c : CarInventory)
  : bool :=
  let like_pattern := like_pattern search_query in
  sql_ilike W (car_make c) like_pattern ||
  sql_ilike W (car_model c) like_pattern ||
  sql_ilike W (car_description c) like_pattern.

Definition search_query_of (W : World) (search_query : string)
    (filters : SearchFilters) : Query :=
  let query := [] in
  let query := filter_when (text_given (s_make filters)) query
    (fun x c => String.eqb (car_make c) x) in
  let query := filter_when (text_given (s_model filters)) query
    (fun x c => String.eqb (car_model c) x) in
  let query := filter_when (s_min_price filters) query
    (fun x c => Qle_bool x (car_price c)) in
  let query := filter_when (s_max_price filters) query
    (fun x c => Qle_bool (car_price c) x) in
  let query := filter_when (year_given (s_year filters)) query
    (fun x c => Z.eqb (car_year c) x) in
  let query :=
    if Str.truthy search_query then q_filter query (text_hit W search_query)
    else query in
  query.

(** [query.limit(limit).all()], for a limit that is not negative. *)
Definition search_car_inventory (W : World) (search_query : string)
    (filters : SearchFilters) (limit : nat) : list CarInventory :=
  firstn limit (q_all W (search_query_of W search_query filters)).

(* ===================================================================== *)
(** * Reading a summary back (llm_utils.py, lines 218-251;
      all_routes.py, lines 553-572) *)
(* ===================================================================== *)

(** A stored interaction row with the time the store gave it. *)
Record StoredInteraction : Type := mkStored {
  stored : Interaction;
  stored_created_at : option Z
}.

(** [get_conversation_summary]; [latest] is what the query for the first
    row by [created_at], newest first, yields or raises. *)
Definition get_conversation_summary (W : World)
    (latest : result (option StoredInteraction)) (conversation_id : string)
  : option json :=
  match latest with
  | Ok (Some summary) =>
      Some (JObj
        [ ("conversation_id", JStr conversation_id);
          ("sentiment", sentiment (stored summary));
          ("keywords", product_keywords (stored summary));
          ("summary", conversation_summary (stored summary));
          ("department", JStr "Sales");
          ("insights",
           JObj [ ("urgency",
                   JStr (if priority_flag (stored summary)
                         then "high" else "medium"));
                  ("additional_notes",
                   next_steps_recommendation (stored summary)) ]);
          ("created_at", match stored_created_at summary with
                         | Some t => JStr (isoformat W t)
                         | None => JNull
                         end) ])
  | Ok None => None
  | Raise _ => None
  end.

(** [GET /get-summary/<conversation_id>]. *)
Definition get_summary (W : World)
    (latest : result (option StoredInteraction)) (conversation_id : string)
  : Response :=
  match get_conversation_summary W latest conversation_id with
  | Some summary => SummaryResponse summary
  | None => ErrorResponse 404 "Summary not found"
  end.

(* ===================================================================== *)
(** * [POST /car-review-videos] (all_routes.py, lines 574-593) *)
(* ===================================================================== *)

(** A status and a JSON body. *)
Definition JsonResponse : Type := (Z * json)%type.

(** [data] is what [request.json] yields or raises. *)
Definition car_review_videos (W : World) (data : result json)
  : M JsonResponse :=
  try_except
    (data <- lift data ;;
     car_make <- lift (json_get data "car_make") ;;
     car_model <- lift (json_get data "car_model") ;;
     year <- lift (json_get data "year") ;;
     if negb (json_truthy car_make) || negb (json_truthy car_model) then
       ret (400%Z, videos_error "Car make and model are required")
     else
       result <- find_car_review_videos W car_make car_model year ;;
       ret (200%Z, result))
    (fun e => ret (500%Z, videos_error (exn_text e))).

(* ===================================================================== *)
(** * Vocabulary of the further properties *)
(* ===================================================================== *)

(** Events of a tool: the call of its function, a video search. *)
Definition is_tool_event (ev : Event) : bool :=
  match ev with
  | EvFetchCars _ | EvFindVideos _ _ _ | EvVideoSearch _ => true
  | _ => false
  end.

(** Requests to the model API. *)
Definition is_completion (ev : Event) : bool :=
  match ev with
  | EvCompletion _ _ => true
  | _ => false
  end.

(** Events of the summary step after its request to the model. *)
Definition is_bookkeeping (ev : Event) : bool :=
  match ev with
  | EvAnalytics | EvDbAdd _ | EvDbCommit | EvDbRollback => true
  | _ => false
  end.

(** The message with its content in lower case. *)
Definition lower_message (W : World) (m : Message) : Message :=
  mkMessage (role m)
            (match content m with
             | Val c => Val (py_lower W c)
             | other => other
             end)
            (tool_calls m) (tool_call_id m).

Definition lower_entry (W : World) (e : Entry) : Entry :=
  match e with
  | Obj m => Obj (lower_message W m)
  | NotObj v => NotObj v
  end.

(** An entry whose content, if it is an object with text content, is
    ASCII text. *)
Definition ascii_content (e : Entry) : bool :=
  match e with
  | Obj m => match content m with Val c => Str.is_ascii c | _ => true end
  | NotObj _ => true
  end.

(** The history a request object carries into [/chat]. *)
Definition incoming_history (o : RequestObject) : list Entry :=
  match r_history o with
  | HistList l => l
  | _ => []
  end.

(** [/tool-call-result] without the branch of lines 346-441. *)
Definition tool_call_result_live (W : World) (data : Body) : M Response :=
  at_request_boundary
    (with_body data (fun o =>
      match r_history o with
      | HistNotList =>
          ret (ErrorResponse 400 "Invalid conversation history format")
      | hist =>
          let conversation_history :=
            match hist with HistList l => l | _ => [] end in
          found <- lift (find_tool_call_message conversation_history) ;;
          match found with
          | None =>
              ret (ErrorResponse 400
                     "No assistant message found in conversation history")
          | Some tool_call_message =>
              outcome <- process_tool_calls W (calls_of tool_call_message)
                                            conversation_history ;;
              match outcome with
              | inl response => ret response
              | inr conversation_history => finalize W conversation_history
              end
          end
      end)).

(** A video API that answers, for sample runs. *)
Definition sample_video : Video :=
  mkVideo "dQw4w9WgXcQ" "2025 Nissan Kicks review" "Full walkthrough"
          "https://i.ytimg.com/vi/dQw4w9WgXcQ/hqdefault.jpg".

Definition sample_world_with_videos : World := {|
  unicode_lower := unicode_lower Sample.world;
  unicode_strip := unicode_strip Sample.world;
  chat_completion := chat_completion Sample.world;
  json_loads := json_loads Sample.world;
  json_dumps := json_dumps Sample.world;
  current_time_formatted := current_time_formatted Sample.world;
  uuid4 := uuid4 Sample.world;
  inventory := inventory Sample.world;
  sql_ilike := sql_ilike Sample.world;
  py_float := py_float Sample.world;
  isoformat := isoformat Sample.world;
  fetch_cars_dynamic := fetch_cars_dynamic Sample.world;
  py_format := py_format Sample.world;
  video_client_import_failure := None;
  youtube_api_key := Some "key";
  youtube_build_failure := fun _ => None;
  youtube_search := fun _ => Ok [sample_video];
  record_analytics := record_analytics Sample.world;
  commit_failure := commit_failure Sample.world
|}.

(** The model asks for a tool. *)
Definition sample_world_tool_call : World := {|
  unicode_lower := unicode_lower Sample.world;
  unicode_strip := unicode_strip Sample.world;
  chat_completion := fun _ mode =>
    match mode with
    | WithTools =>
        Ok (mkCompletion None [Sample.pending_call "call_9" "fetch_cars"] 30 9)
    | _ => chat_completion Sample.world [] mode
    end;
  json_loads := json_loads Sample.world;
  json_dumps := json_dumps Sample.world;
  current_time_formatted := current_time_formatted Sample.world;
  uuid4 := uuid4 Sample.world;
  inventory := inventory Sample.world;
  sql_ilike := sql_ilike Sample.world;
  py_float := py_float Sample.world;
  isoformat := isoformat Sample.world;
  fetch_cars_dynamic := fetch_cars_dynamic Sample.world;
  py_format := py_format Sample.world;
  video_client_import_failure := None;
  youtube_api_key := None;
  youtube_build_failure := fun _ => None;
  youtube_search := fun _ => Ok [];
  record_analytics := record_analytics Sample.world;
  commit_failure := commit_failure Sample.world
|}.

(* ===================================================================== *)
(** * Vocabulary of the statements *)
(* ===================================================================== *)

Section Vocabulary.

Variable W : World.

(** An entry that is a JSON object. *)
Definition is_object (e : Entry) : bool :=
  match e with
  | Obj _ => true
  | NotObj _ => false
  end.

(** An entry that is an assistant message. *)
Definition is_assistant (e : Entry) : bool :=
  match e with
  | Obj m => role_is "assistant" m
  | NotObj _ => false
  end.

(** The last assistant message of a transcript. *)
Definition last_assistant (h : list Entry) : option Entry :=
  find is_assistant (rev h).

(** An entry the scan does not step over without a look: anything but an
    object with another role than assistant. *)
Definition scanned (e : Entry) : bool :=
  match e with
  | Obj m => role_is "assistant" m
  | NotObj _ => true
  end.

(** An entry the scan steps over: an object, and if it is an assistant
    message, one whose content is text that holds none of the phrases. *)
Definition passes_scan (e : Entry) : Prop :=
  exists m,
    e = Obj m /\
    (role_is "assistant" m = true ->
     exists c, get_content m = Val c /\ has_end_phrase (py_lower W c) = false).

(** One criterion: passes when the filter does not give it. *)
Definition criterion {A : Type} (o : option A)
    (p : A -> CarInventory -> bool) (c : CarInventory) : bool :=
  match o with
  | Some a => p a c
  | None => true
  end.

(** The criteria other than the stock number and the VIN. *)
Definition matches_other (fp : InventoryFilter) (c : CarInventory) : bool :=
  criterion (text_given (f_make fp))
    (fun x c => sql_ilike W (car_make c) (like_pattern x)) c &&
  criterion (text_given (f_model fp))
    (fun x c => sql_ilike W (car_model c) (like_pattern x)) c &&
  criterion (text_given (f_color fp))
    (fun x c => sql_ilike W (car_color c) (like_pattern x)) c &&
  criterion (number_given (f_year fp))
    (fun x c => Qle_bool x (inject_Z (car_year c))) c &&
  criterion (number_given (f_max_year fp))
    (fun x c => Qle_bool (inject_Z (car_year c)) x) c &&
  criterion (number_given (f_price fp))
    (fun x c => Qle_bool x (car_price c)) c &&
  criterion (number_given (f_max_price fp))
    (fun x c => Qle_bool (car_price c) x) c &&
  criterion (number_given (f_mileage fp))
    (fun x c => Qle_bool (inject_Z (car_mileage c)) x) c.

Definition matches (fp : InventoryFilter) (c : CarInventory) : bool :=
  criterion (text_given (f_stock_number fp))
    (fun x c => String.eqb (car_stock_number c) x) c &&
  criterion (text_given (f_vin fp))
    (fun x c => String.eqb (car_vin c) x) c &&
  matches_other fp c.

(** An identifier asked for: the value is the same string, or no
    identifier is asked for (the key is missing or holds the empty
    string). *)
Definition same_identifier (asked : option string) (value : string) : bool :=
  match asked with
  | Some (String a s) => String.eqb value (String a s)
  | _ => true
  end.

(** A filter that asks for nothing but, possibly, a stock number or a
    VIN: its other text keys are missing or empty, its numeric keys are
    missing or hold -1. *)
Definition only_identifiers (fp : InventoryFilter) : Prop :=
  text_given (f_make fp) = None /\
  text_given (f_model fp) = None /\
  text_given (f_color fp) = None /\
  number_given (f_year fp) = None /\
  number_given (f_max_year fp) = None /\
  number_given (f_price fp) = None /\
  number_given (f_max_price fp) = None /\
  number_given (f_mileage fp) = None.

(** A numeric field that holds the sentinel. *)
Definition is_sentinel (o : option Q) : Prop :=
  exists q, o = Some q /\ q == -1.

(** The id a summary is tagged with: the caller's when it is truthy,
    a fresh one otherwise. *)
Definition effective_id (conversation_id : json) : json :=
  if json_truthy conversation_id then conversation_id else JStr (uuid4 W).

(** The messages sent for analysis of a history of objects. *)
Definition summary_request (h : list Message) : list Entry :=
  Obj summary_prompt :: map Obj (filter kept_for_summary h).

(** A message the search of lines 336-341 stops at. *)
Definition is_tool_call_message (msg : Message) : bool :=
  role_is "assistant" msg && has_tool_calls msg.

(** An entry that search goes past: an object that is not such a
    message. *)
Definition no_tool_call (e : Entry) : bool :=
  match e with
  | Obj m => negb (is_tool_call_message m)
  | NotObj _ => false
  end.

(** The state after further calls: the trace grows, the session stays. *)
Definition extends (st : St) (events : list Event) : St :=
  mkSt (trace st ++ events) (session st).





(** The search text for a make, a model and a year: the two joined by a
    space, the year after another space when it is truthy, and
    [ review]. *)
Definition review_query (car_make car_model year : json) : string :=
  let named := (fmt W car_make ++ " " ++ fmt W car_model)%string in
  ((if json_truthy year then named ++ " " ++ fmt W year else named)
     ++ " review")%string.

(** What a call of the video tool is to yield, and the calls it is to
    make: the search is sent only when the client is there, a key is set
    and the client is built. *)
Definition videos_outcome (car_make car_model year : json)
  : json * list Event :=
  let called := EvFindVideos car_make car_model year in
  match video_client_import_failure W with
  | Some e => (search_failed e, [called])
  | None =>
      match youtube_api_key W with
      | None | Some EmptyString =>
          (videos_error "YouTube API key not configured. Please set the YOUTUBE_API_KEY environment variable.",
           [called])
      | Some key =>
          match youtube_build_failure W key with
          | Some e => (search_failed e, [called])
          | None =>
              let query := review_query car_make car_model year in
              (match youtube_search W query with
               | Ok items => JObj [ ("videos", JArr (map video_json items)) ]
               | Raise e => search_failed e
               end,
               [called; EvVideoSearch query])
          end
      end
  end.



End Vocabulary.

(** Unfolds the monad's operations and runs the steps that do not wait
    for a collaborator. *)
Ltac run_monad :=
  cbv beta iota delta
    [bind ret raise lift try_except emit get_session put_session complete
     db_add db_commit db_rollback store_analytics at_request_boundary
     with_body fst snd].

(* ===================================================================== *)
(** * Properties of the end-of-conversation detector *)
(* ===================================================================== *)

Section Detector.

Variable W : World.

Lemma find_app_some {A : Type} (p : A -> bool) (l1 l2 : list A) (x : A) :
  find p l1 = Some x -> find p (l1 ++ l2) = Some x.
Proof.
  induction l1 as [|a l1 IH]; simpl; [discriminate|].
  destruct (p a); auto.
Qed.

Lemma last_n_app_last {A : Type} (n : nat) (l : list A) (x : A) :
  last_n (S n) (l ++ [x]) = last_n n l ++ [x].
Proof.
  unfold last_n. rewrite length_app. simpl.
  replace (List.length l + 1 - S n)%nat with (List.length l - n)%nat by lia.
  rewrite skipn_app.
  replace (List.length l - n - List.length l)%nat with 0%nat by lia.
  reflexivity.
Qed.

Lemma last_assistant_of_window (n : nat) (h : list Entry) (e : Entry) :
  last_assistant (last_n n h) = Some e -> last_assistant h = Some e.
Proof.
  unfold last_assistant, last_n. intros H.
  rewrite <- (firstn_skipn (List.length h - n) h) at 1.
  rewrite rev_app_distr. now apply find_app_some.
Qed.

(** On ASCII text the runtime's lower-casing is the computed one. *)
Lemma py_lower_ascii (s : string) :
  Str.is_ascii s = true -> py_lower W s = Str.lower s.
Proof. intros H. unfold py_lower. now rewrite H. Qed.

Lemma passes_scan_object (m : Message) :
  passes_scan W (Obj m) <->
  (role_is "assistant" m = true ->
   exists c, get_content m = Val c /\ has_end_phrase (py_lower W c) = false).
Proof.
  split.
  - intros (m' & Hm & H). now injection Hm as <-.
  - intros H. now exists m.
Qed.

Lemma passes_scan_not_object (v : NonObject) : ~ passes_scan W (NotObj v).
Proof. intros (m & Hm & _). discriminate. Qed.

Lemma scan_finds_first (l : list Entry) (m : Message) (c : string) :
  forallb is_object l = true ->
  find is_assistant l = Some (Obj m) ->
  content m = Val c ->
  has_end_phrase (py_lower W c) = true ->
  scan_for_end W l = Ok true.
Proof.
  induction l as [|[a|v] l IH]; simpl; try discriminate.
  intros Hobj Hfind Hc Hp.
  destruct (role_is "assistant" a) eqn:Ha.
  - injection Hfind as ->. unfold get_content. rewrite Hc, Hp. reflexivity.
  - auto.
Qed.

Lemma scan_only_assistant (l : list Entry) :
  scan_for_end W l = scan_for_end W (filter scanned l).
Proof.
  induction l as [|[a|v] l IH]; simpl; [reflexivity| |reflexivity].
  destruct (role_is "assistant" a) eqn:Ha; simpl; [|exact IH].
  rewrite Ha. destruct (get_content a) as [| |c]; try reflexivity.
  destruct (has_end_phrase (py_lower W c)); [reflexivity|exact IH].
Qed.

Lemma scan_true_iff (l : list Entry) :
  scan_for_end W l = Ok true <->
  exists before m after c,
    l = before ++ Obj m :: after /\
    role_is "assistant" m = true /\
    get_content m = Val c /\
    has_end_phrase (py_lower W c) = true /\
    Forall (passes_scan W) before.
Proof.
  induction l as [|[a|v] l IH]; simpl.
  - split; [discriminate|].
    intros (before & m & after & c & H & _). now destruct before.
  - destruct (role_is "assistant" a) eqn:Ha.
    + destruct (get_content a) as [| |c] eqn:Hc.
      * split; [discriminate|].
        intros (before & m & after & c & H & Hm & Hmc & Hp & Hb).
        destruct before as [|b before]; injection H as E1 E2; subst;
          [congruence|].
        inversion Hb as [|? ? Hpass _]; subst.
        destruct (proj1 (passes_scan_object _) Hpass Ha) as (c' & Hc' & _). congruence.
      * split; [discriminate|].
        intros (before & m & after & c & H & Hm & Hmc & Hp & Hb).
        destruct before as [|b before]; injection H as E1 E2; subst;
          [congruence|].
        inversion Hb as [|? ? Hpass _]; subst.
        destruct (proj1 (passes_scan_object _) Hpass Ha) as (c' & Hc' & _). congruence.
      * destruct (has_end_phrase (py_lower W c)) eqn:Hp.
        -- split; [|reflexivity]. intros _.
           exists [], a, l, c. repeat split; auto.
        -- rewrite IH. split.
           ++ intros (before & m & after & c' & -> & Hm & Hmc & Hp' & Hb).
              exists (Obj a :: before), m, after, c'. repeat split; auto.
              constructor; [|exact Hb].
              apply passes_scan_object. intros _. now exists c.
           ++ intros (before & m & after & c' & H & Hm & Hmc & Hp' & Hb).
              destruct before as [|b before]; injection H as E1 E2; subst.
              ** congruence.
              ** exists before, m, after, c'.
                 repeat split; auto. now inversion Hb.
    + rewrite IH. split.
      * intros (before & m & after & c' & -> & Hm & Hmc & Hp' & Hb).
        exists (Obj a :: before), m, after, c'. repeat split; auto.
        constructor; [|exact Hb].
        apply passes_scan_object. intros Ha'. congruence.
      * intros (before & m & after & c' & H & Hm & Hmc & Hp' & Hb).
        destruct before as [|b before]; injection H as E1 E2; subst.
        -- congruence.
        -- exists before, m, after, c'.
           repeat split; auto. now inversion Hb.
  - split; [discriminate|].
    intros (before & m & after & c & H & _ & _ & _ & Hb).
    destruct before as [|b before]; [discriminate H|].
    injection H as <- _. inversion Hb as [|? ? Hpass _]; subst.
    now apply passes_scan_not_object in Hpass.
Qed.

Lemma scan_false_iff (l : list Entry) :
  scan_for_end W l = Ok false <-> Forall (passes_scan W) l.
Proof.
  induction l as [|[a|v] l IH]; simpl.
  - split; auto.
  - destruct (role_is "assistant" a) eqn:Ha.
    + destruct (get_content a) as [| |c] eqn:Hc.
      * split; [discriminate|]. intros H. inversion H as [|? ? Hpass _]; subst.
        destruct (proj1 (passes_scan_object _) Hpass Ha) as (c' & Hc' & _). congruence.
      * split; [discriminate|]. intros H. inversion H as [|? ? Hpass _]; subst.
        destruct (proj1 (passes_scan_object _) Hpass Ha) as (c' & Hc' & _). congruence.
      * destruct (has_end_phrase (py_lower W c)) eqn:Hp.
        -- split; [discriminate|].
           intros H. inversion H as [|? ? Hpass _]; subst.
           destruct (proj1 (passes_scan_object _) Hpass Ha) as (c' & Hc' & Hp'). congruence.
        -- rewrite IH. split.
           ++ intros H. constructor; [|exact H].
              apply passes_scan_object. intros _. now exists c.
           ++ intros H. now inversion H.
    + rewrite IH. split.
      * intros H. constructor; [|exact H].
        apply passes_scan_object. intros Ha'. congruence.
      * intros H. now inversion H.
  - split; [discriminate|]. intros H. inversion H as [|? ? Hpass _]; subst.
    now apply passes_scan_not_object in Hpass.
Qed.

Lemma detect_on_window (h : list Entry) :
  (3 <= List.length h)%nat ->
  detect_end_of_conversation W h = scan_for_end W (rev (last_n 5 h)).
Proof.
  intros H. unfold detect_end_of_conversation.
  destruct (Nat.ltb_spec (List.length h) 3); [lia|reflexivity].
Qed.

Lemma farewell_has_end_phrase : has_end_phrase (py_lower W farewell) = true.
Proof.
  rewrite py_lower_ascii by (vm_compute; reflexivity).
  vm_compute. reflexivity.
Qed.

Lemma forallb_rev {A : Type} (p : A -> bool) (l : list A) :
  forallb p (rev l) = forallb p l.
Proof.
  induction l as [|a l IH]; simpl; [reflexivity|].
  rewrite forallb_app, IH. simpl. rewrite andb_true_r. apply andb_comm.
Qed.

End Detector.

(** C5 (as amended). For a transcript of at least three entries: if the
    last five entries are JSON objects, hold an assistant message, and the
    last assistant message among them is exactly the farewell sentence,
    that message is the transcript's last assistant message and the
    detector returns true; the outcome depends on the last five entries
    only; it is the outcome of the scan, most recent first, over those
    entries without the objects that have another role than assistant; it
    is true exactly when, going back from the most recent entry, an
    assistant message whose content, lower-cased by [str.lower], contains
    one of the fixed phrases is reached after objects only, each of them
    either not an assistant message or one with text content that contains
    none of the phrases; and it is false exactly when all of the last five
    entries are objects of that kind. *)
Theorem detect_end_of_conversation_window (W : World) (h : list Entry)
    (Hlen : (3 <= List.length h)%nat) :
  (forall m,
      forallb is_object (last_n 5 h) = true ->
      last_assistant (last_n 5 h) = Some (Obj m) ->
      content m = Val farewell ->
      last_assistant h = Some (Obj m) /\
      detect_end_of_conversation W h = Ok true) /\
  (forall h',
      (3 <= List.length h')%nat ->
      last_n 5 h' = last_n 5 h ->
      detect_end_of_conversation W h' = detect_end_of_conversation W h) /\
  detect_end_of_conversation W h =
    scan_for_end W (filter scanned (rev (last_n 5 h))) /\
  (detect_end_of_conversation W h = Ok true <->
   exists before m after c,
     rev (last_n 5 h) = before ++ Obj m :: after /\
     role_is "assistant" m = true /\
     get_content m = Val c /\
     existsb (fun phrase => Str.contains phrase (py_lower W c)) end_phrases
       = true /\
     Forall (passes_scan W) before) /\
  (detect_end_of_conversation W h = Ok false <->
   Forall (passes_scan W) (last_n 5 h)).
Proof.
  split; [|split; [|split; [|split]]].
  - intros m Hobj Hlast Hc. split.
    + now apply last_assistant_of_window with (n := 5%nat).
    + rewrite detect_on_window by assumption.
      apply scan_finds_first with (m := m) (c := farewell);
        [now rewrite forallb_rev | exact Hlast | exact Hc
        | apply farewell_has_end_phrase].
  - intros h' Hlen' Hw. rewrite !detect_on_window by assumption. now rewrite Hw.
  - rewrite detect_on_window by assumption. apply scan_only_assistant.
  - rewrite detect_on_window by assumption. apply scan_true_iff.
  - rewrite detect_on_window by assumption. rewrite scan_false_iff.
    split; intros H.
    + rewrite <- (rev_involutive (last_n 5 h)). now apply Forall_rev.
    + now apply Forall_rev.
Qed.

Lemma detect_end_of_conversation_window_witness :
  let h := [Obj (user_msg "Do you have a Kicks in red?");
            Obj (assistant_msg farewell);
            Obj (system_msg "Current time: 2025-03-01 10:15:00 EST")] in
  (3 <= List.length h)%nat /\
  detect_end_of_conversation Sample.world h = Ok true.
Proof.
  split; [simpl; lia|].
  apply (detect_end_of_conversation_window Sample.world
           [Obj (user_msg "Do you have a Kicks in red?");
            Obj (assistant_msg farewell);
            Obj (system_msg "Current time: 2025-03-01 10:15:00 EST")]
           ltac:(simpl; lia)) with (m := assistant_msg farewell);
    reflexivity.
Defined.

(** C5 (as stated) fails on a two-message transcript: its last assistant
    message is exactly the farewell sentence, and the detector returns
    false. *)
Lemma detect_end_of_conversation_short_transcript :
  last_assistant [Obj (user_msg "bye"); Obj (assistant_msg farewell)]
    = Some (Obj (assistant_msg farewell)) /\
  detect_end_of_conversation Sample.world
    [Obj (user_msg "bye"); Obj (assistant_msg farewell)]
    = Ok false.
Proof. split; reflexivity. Qed.

(** C9. On a transcript of at least three messages whose last message is
    an assistant message with [null] content, the detector raises the
    [AttributeError] of lower-casing [None] instead of returning. *)
Theorem detect_end_of_conversation_null_content (W : World)
    (h : list Entry) (m : Message) :
  (3 <= List.length (h ++ [Obj m]))%nat ->
  role m = Some "assistant" ->
  content m = Null ->
  detect_end_of_conversation W (h ++ [Obj m])
    = Raise (AttributeError "'NoneType' object has no attribute 'lower'").
Proof.
  intros Hlen Hrole Hnull.
  rewrite detect_on_window by assumption.
  rewrite (last_n_app_last 4 h (Obj m)), rev_app_distr. simpl.
  unfold role_is, get_content. rewrite Hrole, Hnull. reflexivity.
Qed.

Lemma detect_end_of_conversation_null_content_witness :
  detect_end_of_conversation Sample.world
    ([Obj (user_msg "Show me the red Kicks");
      Obj (system_msg "Current time: noon")]
       ++ [Obj (mkMessage (Some "assistant") Null
                  (Val [Sample.pending_call "call_1" "fetch_cars"]) None)])
    = Raise (AttributeError "'NoneType' object has no attribute 'lower'").
Proof.
  apply detect_end_of_conversation_null_content;
    [simpl; lia | reflexivity | reflexivity].
Defined.

(* ===================================================================== *)
(** * Properties of the system-context insertion step *)
(* ===================================================================== *)

Section SystemContext.

(** The two prompts have the length of the source's literals. *)
Example prompt_lengths :
  String.length system_message_content = 4252%nat /\
  String.length summary_prompt_content = 1362%nat.
Proof. split; vm_compute; reflexivity. Qed.

Lemma persona_has_marker :
  Str.contains persona_marker system_message_content = true.
Proof. vm_compute. reflexivity. Qed.

Lemma any_system_with_cons (marker : string) (msg : Message)
    (rest : list Entry) :
  any_system_with marker (Obj msg :: rest) =
  if role_is "system" msg then
    match get_content msg with
    | Val c =>
        if Str.contains marker c then Ok true
        else any_system_with marker rest
    | _ => Raise none_not_iterable
    end
  else any_system_with marker rest.
Proof. reflexivity. Qed.

Lemma any_system_with_persona (h : list Entry) :
  any_system_with persona_marker (Obj system_message :: h) = Ok true.
Proof.
  rewrite any_system_with_cons.
  change (role_is "system" system_message) with true.
  change (get_content system_message) with (Val system_message_content).
  cbv iota. now rewrite persona_has_marker.
Qed.

(** A hit stays a hit when entries are appended. *)
Lemma any_system_with_app_true (marker : string) (l1 l2 : list Entry) :
  any_system_with marker l1 = Ok true ->
  any_system_with marker (l1 ++ l2) = Ok true.
Proof.
  induction l1 as [|[a|v] l1 IH]; try discriminate.
  rewrite <- app_comm_cons, !any_system_with_cons.
  destruct (role_is "system" a); [|exact IH].
  destruct (get_content a) as [| |c]; auto.
  destruct (Str.contains marker c); auto.
Qed.

(** A completed miss hands the search over to what is appended. *)
Lemma any_system_with_app_false (marker : string) (l1 l2 : list Entry) :
  any_system_with marker l1 = Ok false ->
  any_system_with marker (l1 ++ l2) = any_system_with marker l2.
Proof.
  induction l1 as [|[a|v] l1 IH]; [reflexivity| |discriminate].
  rewrite <- app_comm_cons, !any_system_with_cons.
  destruct (role_is "system" a); [|exact IH].
  destruct (get_content a) as [| |c]; try discriminate.
  destruct (Str.contains marker c); [discriminate|exact IH].
Qed.

Lemma any_system_with_time_context (now : string) :
  any_system_with time_marker [Obj (time_context_message now)] = Ok true.
Proof. reflexivity. Qed.

Lemma any_true_not_empty (marker : string) (h : list Entry) :
  any_system_with marker h = Ok true -> is_empty h = false.
Proof. destruct h; [discriminate|reflexivity]. Qed.

(** Once both markers are found, the step returns its input. *)
Lemma ensure_system_context_marked (now : string) (h : list Entry) :
  any_system_with persona_marker h = Ok true ->
  any_system_with time_marker h = Ok true ->
  ensure_system_context now h = Ok h.
Proof.
  intros Hp Ht. unfold ensure_system_context.
  rewrite Hp, (any_true_not_empty _ _ Hp). simpl. now rewrite Ht.
Qed.

(** What the step returns carries both markers. *)
Lemma ensure_system_context_marks (now : string) (h h' : list Entry) :
  ensure_system_context now h = Ok h' ->
  any_system_with persona_marker h' = Ok true /\
  any_system_with time_marker h' = Ok true.
Proof.
  unfold ensure_system_context.
  destruct (any_system_with persona_marker h) as [has_system|e] eqn:Hp;
    [|discriminate].
  set (h1 := if is_empty h || negb has_system
             then Obj system_message :: h else h).
  assert (Hp1 : any_system_with persona_marker h1 = Ok true).
  { subst h1. destruct (is_empty h || negb has_system) eqn:Hins.
    - apply any_system_with_persona.
    - apply orb_false_iff in Hins as [_ Hs].
      apply negb_false_iff in Hs. now subst. }
  destruct (any_system_with time_marker h1) as [has_time|e] eqn:Ht;
    [|discriminate].
  intros H. injection H as <-. destruct has_time; simpl.
  - auto.
  - split.
    + now apply any_system_with_app_true.
    + rewrite any_system_with_app_false by assumption.
      apply any_system_with_time_context.
Qed.

End SystemContext.

(** C4. When the insertion step has run on a transcript, the transcript
    it returns carries the persona marker and the time-context marker, and
    running the step again on it, at whatever time, returns it unchanged:
    no second persona message and no second time-context message. More
    generally the step returns unchanged every transcript in which both
    markers are found. *)
Theorem ensure_system_context_idempotent (now now' : string)
    (h h' : list Entry) :
  ensure_system_context now h = Ok h' ->
  ensure_system_context now' h' = Ok h' /\
  any_system_with persona_marker h' = Ok true /\
  any_system_with time_marker h' = Ok true /\
  (forall g,
      any_system_with persona_marker g = Ok true ->
      any_system_with time_marker g = Ok true ->
      ensure_system_context now' g = Ok g).
Proof.
  intros H. destruct (ensure_system_context_marks _ _ H) as [Hp Ht].
  repeat split; auto using ensure_system_context_marked.
Qed.

Lemma ensure_system_context_idempotent_witness :
  let now := "2025-03-01 10:15:00 EST" in
  let h' := [Obj system_message; Obj (user_msg "Hello");
             Obj (time_context_message now)] in
  ensure_system_context now [Obj (user_msg "Hello")] = Ok h' /\
  ensure_system_context "2025-03-01 10:16:30 EST" h' = Ok h'.
Proof.
  split; [reflexivity|].
  apply (ensure_system_context_idempotent
           "2025-03-01 10:15:00 EST" "2025-03-01 10:16:30 EST"
           [Obj (user_msg "Hello")]).
  reflexivity.
Defined.

(* ===================================================================== *)
(** * Properties of the inventory lookup *)
(* ===================================================================== *)

Section Inventory.

Variable W : World.

Lemma forallb_filter_when {A : Type} (o : option A) (q : Query)
    (p : A -> CarInventory -> bool) (c : CarInventory) :
  forallb (fun f => f c) (filter_when o q p) =
  forallb (fun f => f c) q && criterion o p c.
Proof.
  destruct o as [a|]; simpl.
  - unfold q_filter. rewrite forallb_app. simpl. now rewrite andb_true_r.
  - now rewrite andb_true_r.
Qed.

Lemma build_query_matches (fp : InventoryFilter) (c : CarInventory) :
  forallb (fun f => f c) (build_query W fp) = matches W fp c.
Proof.
  unfold build_query, matches, matches_other.
  rewrite !forallb_filter_when. simpl.
  repeat match goal with
         | |- context [criterion ?o ?p c] =>
             let b := fresh "b" in
             generalize (criterion o p c); intro b
         end.
  repeat match goal with b : bool |- _ => destruct b end; reflexivity.
Qed.

Lemma fetch_cars_rows_matches (fp : InventoryFilter) :
  fetch_cars_rows W fp = filter (matches W fp) (inventory W).
Proof.
  unfold fetch_cars_rows, q_all. apply filter_ext.
  intros c. apply build_query_matches.
Qed.

Lemma filter_all {A : Type} (p : A -> bool) (l : list A) :
  (forall x, p x = true) -> filter p l = l.
Proof.
  intros H. induction l as [|a l IH]; simpl; [reflexivity|].
  now rewrite H, IH.
Qed.

Lemma number_given_sentinel (o : option Q) :
  is_sentinel o -> number_given o = None.
Proof.
  intros (q & -> & Hq). unfold number_given.
  apply Qeq_bool_iff in Hq. now rewrite Hq.
Qed.

Lemma text_given_some (s : string) : s <> "" -> text_given (Some s) = Some s.
Proof. destruct s; [congruence|reflexivity]. Qed.

(** The equality test the query makes for an identifier. *)
Lemma criterion_same_identifier (asked : option string)
    (column : CarInventory -> string) (c : CarInventory) :
  criterion (text_given asked) (fun x c => String.eqb (column c) x) c
  = same_identifier asked (column c).
Proof. destruct asked as [[|a s]|]; reflexivity. Qed.

Lemma same_identifier_given (s value : string) :
  s <> "" -> same_identifier (Some s) value = String.eqb value s.
Proof. destruct s; [congruence|reflexivity]. Qed.

Lemma same_identifier_not_given (asked : option string) (value : string) :
  text_given asked = None -> same_identifier asked value = true.
Proof. destruct asked as [[|a s]|]; [reflexivity|discriminate|reflexivity]. Qed.

(** The rows selected, by the three groups of criteria. *)
Lemma fetch_cars_rows_identifiers (fp : InventoryFilter) :
  fetch_cars_rows W fp =
    filter (fun c =>
              same_identifier (f_stock_number fp) (car_stock_number c) &&
              same_identifier (f_vin fp) (car_vin c) &&
              matches_other W fp c)
           (inventory W).
Proof.
  rewrite fetch_cars_rows_matches. apply filter_ext. intros c.
  unfold matches.
  rewrite (criterion_same_identifier (f_stock_number fp) car_stock_number),
          (criterion_same_identifier (f_vin fp) car_vin).
  reflexivity.
Qed.

Lemma only_identifiers_matches_other (fp : InventoryFilter)
    (c : CarInventory) :
  only_identifiers fp -> matches_other W fp c = true.
Proof.
  intros (H1 & H2 & H3 & H4 & H5 & H6 & H7 & H8). unfold matches_other.
  now rewrite H1, H2, H3, H4, H5, H6, H7, H8.
Qed.

End Inventory.

(** C6. For a filter whose five numeric fields hold -1 and whose five
    text fields hold the empty string, [fetch_cars] returns one dictionary
    per row of the inventory, in the order of the rows; in each, [price]
    is the row's price converted by [float] and [created_at] is the row's
    timestamp in ISO format (or [null] for a row without one). *)
Theorem fetch_cars_no_criteria (W : World) (fp : InventoryFilter) :
  f_make fp = Some "" -> f_model fp = Some "" -> f_color fp = Some "" ->
  f_stock_number fp = Some "" -> f_vin fp = Some "" ->
  is_sentinel (f_year fp) -> is_sentinel (f_max_year fp) ->
  is_sentinel (f_price fp) -> is_sentinel (f_max_price fp) ->
  is_sentinel (f_mileage fp) ->
  fetch_cars W fp = map (to_dict W) (inventory W) /\
  (forall car,
      json_item (to_dict W car) "price"
        = Ok (JFloat (py_float W (car_price car))) /\
      json_item (to_dict W car) "created_at"
        = Ok (match car_created_at car with
              | Some t => JStr (isoformat W t)
              | None => JNull
              end)).
Proof.
  intros Hmake Hmodel Hcolor Hstock Hvin Hy Hmy Hp Hmp Hmi.
  split; [|intros car; split; reflexivity].
  unfold fetch_cars. rewrite fetch_cars_rows_matches.
  rewrite filter_all; [reflexivity|].
  intros c. unfold matches, matches_other.
  rewrite Hmake, Hmodel, Hcolor, Hstock, Hvin.
  rewrite !number_given_sentinel by assumption.
  reflexivity.
Qed.

Lemma fetch_cars_no_criteria_witness :
  fetch_cars Sample.world
    (mkFilter (Some "") (Some "") (Some "") (Some "") (Some "")
              (Some (-1)) (Some (-1)) (Some (-1)) (Some (-1)) (Some (-1)))
  = map (to_dict Sample.world) [Sample.car_a; Sample.car_b].
Proof.
  apply (fetch_cars_no_criteria Sample.world
           (mkFilter (Some "") (Some "") (Some "") (Some "") (Some "")
                     (Some (-1)) (Some (-1)) (Some (-1)) (Some (-1))
                     (Some (-1))));
    try reflexivity;
    (exists (-1); split; reflexivity).
Defined.

(** C7. [fetch_cars] selects by a stock number and by a VIN through
    equality of the whole string. The rows it returns are exactly the rows
    of the inventory, in their order, whose stock number is the same
    string as the one asked for (when one is asked for), whose VIN is the
    same string as the one asked for (when one is asked for), and that
    meet the other criteria. So a row is returned for a non-empty stock
    number (VIN) exactly when it is in the inventory, has that very stock
    number (VIN) and meets the remaining criteria; a filter that asks for
    nothing but a stock number (a VIN) returns exactly the inventory rows
    with that stock number (VIN); and a filter asking for stock number
    ABC123 returns no row whose stock number is ABC1234. *)
Theorem fetch_cars_exact_identifiers (W : World) (fp : InventoryFilter) :
  fetch_cars_rows W fp =
    filter (fun c =>
              same_identifier (f_stock_number fp) (car_stock_number c) &&
              same_identifier (f_vin fp) (car_vin c) &&
              matches_other W fp c)
           (inventory W) /\
  (forall s c,
      f_stock_number fp = Some s -> s <> "" ->
      (In c (fetch_cars_rows W fp) <->
       In c (inventory W) /\ car_stock_number c = s /\
       same_identifier (f_vin fp) (car_vin c) = true /\
       matches_other W fp c = true)) /\
  (forall v c,
      f_vin fp = Some v -> v <> "" ->
      (In c (fetch_cars_rows W fp) <->
       In c (inventory W) /\ car_vin c = v /\
       same_identifier (f_stock_number fp) (car_stock_number c) = true /\
       matches_other W fp c = true)) /\
  (only_identifiers fp ->
   (forall s,
       f_stock_number fp = Some s -> s <> "" -> text_given (f_vin fp) = None ->
       fetch_cars_rows W fp
         = filter (fun c => String.eqb (car_stock_number c) s) (inventory W)) /\
   (forall v,
       f_vin fp = Some v -> v <> "" -> text_given (f_stock_number fp) = None ->
       fetch_cars_rows W fp
         = filter (fun c => String.eqb (car_vin c) v) (inventory W))) /\
  (f_stock_number fp = Some "ABC123" ->
   forall c, In c (fetch_cars_rows W fp) -> car_stock_number c <> "ABC1234") /\
  fetch_cars W fp = map (to_dict W) (fetch_cars_rows W fp).
Proof.
  assert (Hstock : forall s c,
             f_stock_number fp = Some s -> s <> "" ->
             (In c (fetch_cars_rows W fp) <->
              In c (inventory W) /\ car_stock_number c = s /\
              same_identifier (f_vin fp) (car_vin c) = true /\
              matches_other W fp c = true)).
  { intros s c Hs Hne.
    rewrite fetch_cars_rows_identifiers, filter_In.
    rewrite Hs, (same_identifier_given _ Hne), !andb_true_iff.
    rewrite String.eqb_eq. tauto. }
  split; [apply fetch_cars_rows_identifiers|].
  split; [exact Hstock|].
  split; [|split; [|split]].
  - intros v c Hv Hne.
    rewrite fetch_cars_rows_identifiers, filter_In.
    rewrite Hv, (same_identifier_given _ Hne), !andb_true_iff.
    rewrite String.eqb_eq. tauto.
  - intros Honly. split.
    + intros s Hs Hne Hvin.
      rewrite fetch_cars_rows_identifiers. apply filter_ext. intros c.
      rewrite Hs, (same_identifier_given _ Hne),
        (same_identifier_not_given _ _ Hvin),
        (only_identifiers_matches_other W c Honly).
      now rewrite !andb_true_r.
    + intros v Hv Hne Hstk.
      rewrite fetch_cars_rows_identifiers. apply filter_ext. intros c.
      rewrite Hv, (same_identifier_given _ Hne),
        (same_identifier_not_given _ _ Hstk),
        (only_identifiers_matches_other W c Honly).
      now rewrite !andb_true_r.
  - intros Hs c Hin Habs.
    apply (Hstock "ABC123" c Hs ltac:(discriminate)) in Hin.
    destruct Hin as (_ & Heq & _). rewrite Habs in Heq. discriminate.
  - reflexivity.
Qed.

Lemma fetch_cars_exact_identifiers_witness :
  let fp := mkFilter (Some "") (Some "") (Some "") (Some "ABC123") (Some "")
                     (Some (-1)) (Some (-1)) (Some (-1)) (Some (-1))
                     (Some (-1)) in
  In Sample.car_b (inventory Sample.world) /\
  car_stock_number Sample.car_b = "ABC1234" /\
  fetch_cars_rows Sample.world fp = [Sample.car_a].
Proof.
  split; [right; now left|]. split; [reflexivity|].
  apply (proj1 (proj1 (proj2 (proj2 (proj2
           (fetch_cars_exact_identifiers Sample.world
              (mkFilter (Some "") (Some "") (Some "") (Some "ABC123")
                        (Some "") (Some (-1)) (Some (-1)) (Some (-1))
                        (Some (-1)) (Some (-1)))))))
           ltac:(repeat split; reflexivity))
          "ABC123" eq_refl ltac:(discriminate) eq_refl).
Defined.

(* ===================================================================== *)
(** * Properties of persistence and summary generation *)
(* ===================================================================== *)

Section Summary.

Variable W : World.

Lemma try_except_returns {A : Type} (m : M A) (handler : exn -> M A) :
  (forall e st, exists a st', handler e st = (Ok a, st')) ->
  forall st, exists a st', try_except m handler st = (Ok a, st').
Proof.
  intros Hh st. unfold try_except.
  destruct (m st) as [[a|e] st']; eauto.
Qed.

(** [save_summary_to_db] never raises. *)
Lemma save_summary_to_db_returns (summary_data : json) (st : St) :
  exists ok st', save_summary_to_db W summary_data st = (Ok ok, st').
Proof.
  apply try_except_returns. intros e st0. now eexists _, _.
Qed.

(** When it reports failure it has rolled back: nothing is pending, and
    the committed rows are the ones from before the call. *)
Lemma save_summary_to_db_failure (summary_data : json) (st st' : St) :
  save_summary_to_db W summary_data st = (Ok false, st') ->
  pending (session st') = [] /\
  committed (session st') = committed (session st) /\
  last (trace st') EvDbCommit = EvDbRollback.
Proof.
  unfold save_summary_to_db. run_monad.
  destruct (json_item summary_data "summary"); run_monad;
    [|intros H; injection H as <-; simpl; now rewrite last_last].
  destruct (json_item summary_data "sentiment"); run_monad;
    [|intros H; injection H as <-; simpl; now rewrite last_last].
  destruct (json_item summary_data "keywords"); run_monad;
    [|intros H; injection H as <-; simpl; now rewrite last_last].
  destruct (json_item summary_data "insights") as [ins|]; run_monad;
    [|intros H; injection H as <-; simpl; now rewrite last_last].
  destruct (json_get ins "urgency"); run_monad;
    [|intros H; injection H as <-; simpl; now rewrite last_last].
  destruct (json_get_default ins "additional_notes" (JStr "")); run_monad;
    [|intros H; injection H as <-; simpl; now rewrite last_last].
  match goal with
  | |- context [commit_failure W ?p] => destruct (commit_failure W p)
  end; run_monad; [|discriminate].
  intros H; injection H as <-; simpl. now rewrite last_last.
Qed.

(** When the commit fails on a well-formed summary, the call reports
    failure. *)
Lemma save_summary_to_db_commit_failure (summary_data : json) (st : St)
    (s t k i u n : json) (e : exn) :
  json_item summary_data "summary" = Ok s ->
  json_item summary_data "sentiment" = Ok t ->
  json_item summary_data "keywords" = Ok k ->
  json_item summary_data "insights" = Ok i ->
  json_get i "urgency" = Ok u ->
  json_get_default i "additional_notes" (JStr "") = Ok n ->
  commit_failure W
    (pending (session st) ++ [mkInteraction s t k (json_is_str u "high") n])
    = Some e ->
  fst (save_summary_to_db W summary_data st) = Ok false.
Proof.
  intros Hs Ht Hk Hi Hu Hn Hc.
  unfold save_summary_to_db. run_monad.
  rewrite Hs, Ht, Hk, Hi. run_monad. rewrite Hu, Hn. run_monad.
  cbn [session pending]. now rewrite Hc.
Qed.

(** The filter of lines 98-102 on a history of objects, and on a history
    that holds an entry that is not an object. *)
Lemma filter_for_summary_objects (h : list Message) :
  filter_for_summary (map Obj h) = Ok (map Obj (filter kept_for_summary h)).
Proof.
  induction h as [|m h IH]; simpl; [reflexivity|].
  rewrite IH. now destruct (kept_for_summary m).
Qed.

Lemma filter_for_summary_not_object (before : list Message)
    (v : NonObject) (after : list Entry) :
  filter_for_summary (map Obj before ++ NotObj v :: after)
    = Raise (entry_has_no_get v).
Proof.
  induction before as [|m before IH]; simpl; [reflexivity|].
  now rewrite IH.
Qed.

(** What the filter raises reaches the caller, and nothing has been
    called by then. *)
Lemma generate_on_filter_failure (h : list Entry) (cid : json) (st : St)
    (e : exn) :
  filter_for_summary h = Raise e ->
  generate_conversation_summary W h cid st = (Raise e, st).
Proof.
  intros H. unfold generate_conversation_summary. run_monad. now rewrite H.
Qed.

(** The outcome of the generator in each case of its [try] block, for a
    history the filter accepts. *)
Lemma generate_on_transport_failure (h kept : list Entry) (cid : json)
    (st : St) (e : exn) :
  filter_for_summary h = Ok kept ->
  chat_completion W (Obj summary_prompt :: kept) JsonObject = Raise e ->
  fst (generate_conversation_summary W h cid st)
    = Ok (default_summary (effective_id W cid) e).
Proof.
  intros Hf H.
  unfold generate_conversation_summary. run_monad.
  rewrite Hf. now rewrite H.
Qed.

Lemma generate_on_parse_failure (h kept : list Entry) (cid : json)
    (st : St) (r : Completion) (e : exn) :
  filter_for_summary h = Ok kept ->
  chat_completion W (Obj summary_prompt :: kept) JsonObject = Ok r ->
  loads_content W (c_content r) = Raise e ->
  fst (generate_conversation_summary W h cid st)
    = Ok (default_summary (effective_id W cid) e).
Proof.
  intros Hf H Hl.
  unfold generate_conversation_summary. run_monad.
  rewrite Hf, H. run_monad. now rewrite Hl.
Qed.

Lemma generate_on_non_object (h kept : list Entry) (cid : json)
    (st : St) (r : Completion) (v : json) :
  filter_for_summary h = Ok kept ->
  chat_completion W (Obj summary_prompt :: kept) JsonObject = Ok r ->
  loads_content W (c_content r) = Ok v ->
  (forall kvs, v <> JObj kvs) ->
  exists e,
    json_set_item v "conversation_id" (effective_id W cid) = Raise e /\
    fst (generate_conversation_summary W h cid st)
      = Ok (default_summary (effective_id W cid) e).
Proof.
  intros Hf H Hl Hv.
  unfold generate_conversation_summary. run_monad.
  fold (effective_id W cid).
  rewrite Hf, H. run_monad. rewrite Hl.
  destruct v as [| | | | | |kvs];
    try (eexists; split; reflexivity).
  now destruct (Hv kvs).
Qed.

Lemma generate_on_analytics_failure (h kept : list Entry) (cid : json)
    (st : St) (r : Completion) (kvs : Dict.t) (e : exn) :
  filter_for_summary h = Ok kept ->
  chat_completion W (Obj summary_prompt :: kept) JsonObject = Ok r ->
  loads_content W (c_content r) = Ok (JObj kvs) ->
  record_analytics W r = Some e ->
  fst (generate_conversation_summary W h cid st)
    = Ok (default_summary (effective_id W cid) e).
Proof.
  intros Hf H Hl Ha.
  unfold generate_conversation_summary. run_monad.
  rewrite Hf, H. run_monad. rewrite Hl.
  cbn [json_set_item]. run_monad. now rewrite Ha.
Qed.

(** A decoded object is returned with the id set in it, whether or not
    it could be saved. *)
Lemma generate_on_object (h kept : list Entry) (cid : json)
    (st : St) (r : Completion) (kvs : Dict.t) :
  filter_for_summary h = Ok kept ->
  chat_completion W (Obj summary_prompt :: kept) JsonObject = Ok r ->
  loads_content W (c_content r) = Ok (JObj kvs) ->
  record_analytics W r = None ->
  generate_conversation_summary W h cid st =
    (Ok (JObj (Dict.set "conversation_id" (effective_id W cid) kvs)),
     snd (save_summary_to_db W
            (JObj (Dict.set "conversation_id" (effective_id W cid) kvs))
            (mkSt (trace st
                     ++ [EvCompletion (Obj summary_prompt :: kept) JsonObject]
                     ++ [EvAnalytics])
                  (session st)))).
Proof.
  intros Hf H Hl Ha.
  unfold generate_conversation_summary. run_monad.
  fold (effective_id W cid).
  rewrite Hf, H. run_monad. rewrite Hl. cbn [json_set_item]. run_monad.
  rewrite Ha. cbn [trace session]. rewrite <- app_assoc.
  destruct (save_summary_to_db_returns
              (JObj (Dict.set "conversation_id" (effective_id W cid) kvs))
              (mkSt (trace st
                       ++ [EvCompletion (Obj summary_prompt :: kept)
                                        JsonObject]
                       ++ [EvAnalytics])
                    (session st))) as (ok & st' & Hsave).
  now rewrite Hsave.
Qed.

(** The generator does not raise on a history the filter accepts. *)
Lemma generate_conversation_summary_returns (h kept : list Entry)
    (cid : json) (st : St) :
  filter_for_summary h = Ok kept ->
  exists s st', generate_conversation_summary W h cid st = (Ok s, st').
Proof.
  intros Hf. unfold generate_conversation_summary, bind at 1, lift at 1.
  rewrite Hf.
  apply try_except_returns. intros e st0. now eexists _, _.
Qed.

End Summary.

(** C3 (as amended). On a conversation history all of whose entries are
    JSON objects [generate_conversation_summary] does not raise. When the
    model API call fails, when the reply does not parse as JSON, when it
    parses to something that is not an object, or when recording the
    analytics fails, it returns the default summary: sentiment neutral,
    keywords [error], department Sales, and the error text after
    [Error: ] in the insights' additional notes. On a history that holds
    an entry that is not a JSON object it raises the [AttributeError] of
    the first such entry, before anything is called. *)
Theorem generate_conversation_summary_degrades (W : World)
    (h : list Message) (cid : json) (st : St) :
  (exists s st',
      generate_conversation_summary W (map Obj h) cid st = (Ok s, st')) /\
  (forall e,
      chat_completion W (summary_request h) JsonObject = Raise e ->
      fst (generate_conversation_summary W (map Obj h) cid st)
        = Ok (default_summary (effective_id W cid) e)) /\
  (forall r e,
      chat_completion W (summary_request h) JsonObject = Ok r ->
      loads_content W (c_content r) = Raise e ->
      fst (generate_conversation_summary W (map Obj h) cid st)
        = Ok (default_summary (effective_id W cid) e)) /\
  (forall r v,
      chat_completion W (summary_request h) JsonObject = Ok r ->
      loads_content W (c_content r) = Ok v ->
      (forall kvs, v <> JObj kvs) ->
      exists e,
        json_set_item v "conversation_id" (effective_id W cid) = Raise e /\
        fst (generate_conversation_summary W (map Obj h) cid st)
          = Ok (default_summary (effective_id W cid) e)) /\
  (forall r kvs e,
      chat_completion W (summary_request h) JsonObject = Ok r ->
      loads_content W (c_content r) = Ok (JObj kvs) ->
      record_analytics W r = Some e ->
      fst (generate_conversation_summary W (map Obj h) cid st)
        = Ok (default_summary (effective_id W cid) e)) /\
  (forall v after,
      generate_conversation_summary W (map Obj h ++ NotObj v :: after) cid st
        = (Raise (entry_has_no_get v), st)) /\
  (forall id e,
      json_item (default_summary id e) "sentiment" = Ok (JStr "neutral") /\
      json_item (default_summary id e) "keywords" = Ok (JArr [JStr "error"]) /\
      json_item (default_summary id e) "department" = Ok (JStr "Sales") /\
      (exists insights,
          json_item (default_summary id e) "insights" = Ok insights /\
          json_item insights "additional_notes"
            = Ok (JStr ("Error: " ++ exn_text e)%string))).
Proof.
  pose proof (filter_for_summary_objects h) as Hf.
  split; [now apply generate_conversation_summary_returns
            with (kept := map Obj (filter kept_for_summary h))|].
  split; [intros; now apply generate_on_transport_failure
                          with (kept := map Obj (filter kept_for_summary h))|].
  split; [intros; now apply generate_on_parse_failure
                          with (kept := map Obj (filter kept_for_summary h))
                               (r := r)|].
  split; [intros; now apply generate_on_non_object
                          with (kept := map Obj (filter kept_for_summary h))
                               (r := r) (v := v)|].
  split; [intros; now apply generate_on_analytics_failure
                          with (kept := map Obj (filter kept_for_summary h))
                               (r := r) (kvs := kvs)|].
  split.
  - intros v after. apply generate_on_filter_failure.
    apply filter_for_summary_not_object.
  - intros id e. repeat split. eexists. split; reflexivity.
Qed.

Lemma generate_conversation_summary_degrades_witness :
  fst (generate_conversation_summary Sample.world_api_down
         (map Obj [user_msg "Hi"; assistant_msg "Hello, how can I help?"])
         JNull (fresh empty_session))
    = Ok (default_summary (JStr (uuid4 Sample.world_api_down))
            (ExternalError "Connection error.")).
Proof.
  apply (proj1 (proj2 (generate_conversation_summary_degrades
                         Sample.world_api_down
                         [user_msg "Hi"; assistant_msg "Hello, how can I help?"]
                         JNull (fresh empty_session)))).
  reflexivity.
Defined.

(** C3 (as stated) fails on a history that holds an entry that is not a
    JSON object: here the second entry is a string, and the generator
    raises instead of returning a summary, with the model not asked. *)
Lemma generate_conversation_summary_not_an_object :
  generate_conversation_summary Sample.world
    [Obj (user_msg "Hi"); NotObj (NStr "hi")] JNull (fresh empty_session)
  = (Raise (AttributeError "'str' object has no attribute 'get'"),
     fresh empty_session).
Proof. reflexivity. Qed.

(** A storage failure does not reach the caller of [/generate-summary]:
    whenever the model's reply is a summary object whose commit fails,
    the row is rolled back and the response is the summary, with
    status 200. *)
Lemma generate_summary_swallows_storage_failure (W : World)
    (o : RequestObject) (h : list Message) (r : Completion) (kvs : Dict.t) :
  r_history o = HistList (map Obj h) ->
  chat_completion W (summary_request h) JsonObject = Ok r ->
  loads_content W (c_content r) = Ok (JObj kvs) ->
  record_analytics W r = None ->
  forall st st' response,
    generate_summary W (BodyDict o) st = (Ok response, st') ->
    response = SummaryResponse
                 (JObj (Dict.set "conversation_id"
                          (effective_id W
                             (match r_conversation_id o with
                              | Some v => v
                              | None => JNull
                              end))
                          kvs)) /\
    status_of response = 200%Z.
Proof.
  intros Hh H Hl Ha st st' response.
  unfold generate_summary, generate_summary_body. run_monad.
  assert (Ht : dict_truthy o = true).
  { unfold dict_truthy. rewrite Hh. now destruct (r_message o). }
  rewrite Ht, Hh. run_monad.
  rewrite (@generate_on_object W (map Obj h) _ _ _ r kvs
             (filter_for_summary_objects h) H Hl Ha).
  intros Heq. injection Heq as <- _. split; reflexivity.
Qed.

(** C8, evaluated where it fails. The model returns a well-formed summary
    and the database refuses the commit: the request to
    [/generate-summary] adds the row, attempts the commit, rolls back, and
    answers 200 with the summary; the session ends with nothing committed
    and nothing pending. *)
Theorem generate_summary_hides_storage_failure :
  let outcome :=
    generate_summary Sample.world_db_down
      (Sample.request None [Obj (user_msg "Can I book a test drive today?")])
      (fresh empty_session) in
  option_map status_of
    (match fst outcome with Ok r => Some r | Raise _ => None end)
    = Some 200%Z /\
  (exists s, fst outcome = Ok (SummaryResponse s) /\
             json_item s "sentiment" = Ok (JStr "positive")) /\
  (exists request row,
      trace (snd outcome)
        = [EvCompletion request JsonObject; EvAnalytics; EvDbAdd row;
           EvDbCommit; EvDbRollback]) /\
  session (snd outcome) = mkSession [] [].
Proof.
  vm_compute. repeat split.
  - eexists. split; reflexivity.
  - eexists _, _. reflexivity.
Qed.

(* ===================================================================== *)
(** * Properties of [/chat] *)
(* ===================================================================== *)

Section Chat.

Variable W : World.

(** [/chat] step by step, for a body that is a JSON object. *)
Lemma chat_run (o : RequestObject) (st : St) :
  chat W (BodyDict o) st =
  if dict_truthy o then
    match read_message W o with
    | Raise e => (Ok (ErrorResponse 500 (exn_text e)), st)
    | Ok user_message =>
        if negb (Str.truthy user_message) then
          (Ok (ErrorResponse 400 "No 'message' provided"), st)
        else
          match ensure_system_context (current_time_formatted W)
                                      (incoming_history o) with
          | Raise e => (Ok (ErrorResponse 500 (exn_text e)), st)
          | Ok ensured =>
              match chat_completion W ensured WithTools with
              | Raise e =>
                  (Ok (ErrorResponse 500 (exn_text e)),
                   extends st [EvCompletion ensured WithTools])
              | Ok message =>
                  let hist :=
                    ensured ++ [Obj (chat_assistant_message W message)] in
                  match maybe_summarize W hist
                          (extends st [EvCompletion ensured WithTools]) with
                  | (Ok summary, st') =>
                      (Ok (ChatResponse (chat_reply W message) hist
                             (negb (is_empty (c_tool_calls message))) summary),
                       st')
                  | (Raise e, st') => (Ok (ErrorResponse 500 (exn_text e)), st')
                  end
              end
          end
    end
  else (Ok (ErrorResponse 400 "Missing JSON body"), st).
Proof.
  unfold chat, chat_body, incoming_history, extends. run_monad.
  destruct (dict_truthy o); [|reflexivity].
  destruct (read_message W o) as [um|e]; [|reflexivity].
  destruct (negb (Str.truthy um)); [reflexivity|].
  destruct (ensure_system_context _ _) as [ensured|e]; [|reflexivity].
  destruct (chat_completion W ensured WithTools) as [message|e];
    [|reflexivity].
  cbv zeta.
  now destruct (maybe_summarize W _ _) as [[summary|e] st'].
Qed.

(** The summary step only adds to the trace. *)
Lemma generate_conversation_summary_grows (h : list Entry) (cid : json)
    (st : St) :
  exists events,
    trace (snd (generate_conversation_summary W h cid st))
      = trace st ++ events.
Proof.
  unfold generate_conversation_summary. run_monad.
  destruct (filter_for_summary h) as [kept|e];
    [|exists []; simpl; now rewrite app_nil_r].
  destruct (chat_completion W _ JsonObject) as [r|e];
    run_monad; cbn [trace session]; [|now eexists].
  destruct (loads_content W (c_content r)) as [v|e];
    run_monad; cbn [trace session]; [|now eexists].
  destruct (json_set_item v "conversation_id" _) as [v'|e];
    run_monad; cbn [trace session]; [|now eexists].
  destruct (record_analytics W r) as [e|]; run_monad; cbn [trace session].
  - rewrite <- app_assoc. now eexists.
  - unfold save_summary_to_db. run_monad.
    repeat match goal with
           | |- context [match ?x with Ok _ => _ | Raise _ => _ end] =>
               destruct x; run_monad; cbn [trace session]
           | |- context [match commit_failure W ?p with _ => _ end] =>
               destruct (commit_failure W p); run_monad; cbn [trace session]
           end;
      rewrite <- ?app_assoc; now eexists.
Qed.

Lemma maybe_summarize_grows (h : list Entry) (st : St) :
  exists events,
    trace (snd (maybe_summarize W h st)) = trace st ++ events.
Proof.
  unfold maybe_summarize. run_monad.
  destruct (detect_end_of_conversation W h) as [[|]|e];
    try (exists []; simpl; now rewrite app_nil_r).
  destruct (find_conversation_id W h) as [cid|e];
    [|exists []; simpl; now rewrite app_nil_r].
  apply generate_conversation_summary_grows.
Qed.

End Chat.

(** C10 (as amended). Two [/chat] requests with the same
    [conversation_history] and with [message] strings that are both
    non-empty once stripped by [str.strip] have the same outcome: the same
    response, conversation history included, and the same calls in the
    same order. The transcript sent to the model, if the insertion step
    returns one, is the one that step makes of the incoming history, in
    which the [message] has no part. A request whose [message] is missing
    or is empty once stripped is answered 400 and calls nothing; a request
    whose [message] is not a string ([null] included) is answered 500 and
    calls nothing. *)
Theorem chat_ignores_message_text (W : World) (o1 o2 : RequestObject)
    (m1 m2 : string) (st : St) :
  r_message o1 = Some (JStr m1) ->
  r_message o2 = Some (JStr m2) ->
  r_history o1 = r_history o2 ->
  py_strip W m1 <> "" ->
  py_strip W m2 <> "" ->
  chat W (BodyDict o1) st = chat W (BodyDict o2) st /\
  (forall ensured,
      ensure_system_context (current_time_formatted W) (incoming_history o1)
        = Ok ensured ->
      exists rest,
        trace (snd (chat W (BodyDict o1) st))
          = trace st ++ EvCompletion ensured WithTools :: rest) /\
  (forall ensured reply hist detected summary,
      ensure_system_context (current_time_formatted W) (incoming_history o1)
        = Ok ensured ->
      fst (chat W (BodyDict o1) st)
        = Ok (ChatResponse reply hist detected summary) ->
      exists answer,
        hist = ensured ++ [Obj answer] /\ role answer = Some "assistant") /\
  (forall o,
      r_message o = None \/
      (exists m, r_message o = Some (JStr m) /\ py_strip W m = "") ->
      exists text, chat W (BodyDict o) st = (Ok (ErrorResponse 400 text), st)) /\
  (forall o v,
      r_message o = Some v ->
      (forall s, v <> JStr s) ->
      chat W (BodyDict o) st
        = (Ok (ErrorResponse 500 (exn_text (has_no_attribute v "strip"))), st)).
Proof.
  intros H1 H2 Hh Hs1 Hs2.
  assert (Ht1 : dict_truthy o1 = true) by (unfold dict_truthy; now rewrite H1).
  assert (Ht2 : dict_truthy o2 = true) by (unfold dict_truthy; now rewrite H2).
  assert (Hr1 : exists c a, read_message W o1 = Ok (String c a)).
  { unfold read_message. rewrite H1.
    destruct (py_strip W m1) as [|c a]; [congruence|now exists c, a]. }
  assert (Hr2 : exists c a, read_message W o2 = Ok (String c a)).
  { unfold read_message. rewrite H2.
    destruct (py_strip W m2) as [|c a]; [congruence|now exists c, a]. }
  destruct Hr1 as (c1 & a1 & Hr1). destruct Hr2 as (c2 & a2 & Hr2).
  split; [|split; [|split; [|split]]].
  - rewrite !chat_run, Ht1, Ht2, Hr1, Hr2. unfold incoming_history.
    now rewrite Hh.
  - intros ensured He. rewrite chat_run, Ht1, Hr1, He. cbn [negb Str.truthy].
    destruct (chat_completion W ensured WithTools) as [message|e].
    + cbv zeta.
      destruct (maybe_summarize_grows W
                  (ensured ++ [Obj (chat_assistant_message W message)])
                  (extends st [EvCompletion ensured WithTools]))
        as (events & Hev).
      exists events.
      destruct (maybe_summarize W _ _) as [[summary|e] st'];
        cbn [snd] in *; rewrite Hev; unfold extends; cbn [trace];
        now rewrite <- app_assoc.
    + now exists [].
  - intros ensured reply hist detected summary He.
    rewrite chat_run, Ht1, Hr1, He. cbn [negb Str.truthy].
    destruct (chat_completion W ensured WithTools) as [message|e];
      [|discriminate].
    cbv zeta. destruct (maybe_summarize W _ _) as [[s|e] st']; [|discriminate].
    cbn [fst]. intros H. injection H as _ <- _ _.
    now exists (chat_assistant_message W message).
  - intros o Ho. rewrite chat_run. unfold read_message.
    destruct (dict_truthy o); [|now eexists].
    destruct Ho as [-> | (m & -> & Hm)].
    + now eexists.
    + rewrite Hm. now eexists.
  - intros o v Hv Hns. rewrite chat_run. unfold dict_truthy, read_message.
    rewrite Hv. cbn [orb].
    destruct v as [| | | |s| |]; try reflexivity. now destruct (Hns s).
Qed.

Lemma chat_ignores_message_text_witness :
  chat Sample.world
       (Sample.request (Some (JStr "Do you have a red Kicks?")) [])
       (fresh empty_session)
  = chat Sample.world
         (Sample.request (Some (JStr "  What are your hours? ")) [])
         (fresh empty_session).
Proof.
  apply (chat_ignores_message_text Sample.world
           (mkRequest (Some (JStr "Do you have a red Kicks?")) (HistList [])
                      None false)
           (mkRequest (Some (JStr "  What are your hours? ")) (HistList [])
                      None false)
           (fresh empty_session) eq_refl eq_refl eq_refl);
    vm_compute; discriminate.
Defined.

(** C10 (as stated) fails for a [message] that is not empty but holds
    white space only: with the same history, one request is refused with a
    400 and the other is answered. *)
Lemma chat_blank_message :
  Str.truthy " " = true /\
  Str.truthy "Hi" = true /\
  chat Sample.world (Sample.request (Some (JStr " ")) [])
       (fresh empty_session)
    = (Ok (ErrorResponse 400 "No 'message' provided"), fresh empty_session) /\
  (exists h,
      fst (chat Sample.world (Sample.request (Some (JStr "Hi")) [])
                (fresh empty_session))
        = Ok (ChatResponse "Here is what I found." h false JNull)).
Proof.
  repeat split. eexists. vm_compute. reflexivity.
Qed.

(* ===================================================================== *)
(** * Properties of [/tool-call-result] *)
(* ===================================================================== *)

Section ToolResult.

Variable W : World.

(** What the search returns carries tool calls: the branch of lines
    346-441 is never taken. *)
Lemma search_tool_call_message_has_calls (l : list Entry) (m : Message) :
  search_tool_call_message l = Ok (Some m) -> has_tool_calls m = true.
Proof.
  induction l as [|[a|v] l IH]; simpl; try discriminate.
  destruct (role_is "assistant" a && has_tool_calls a) eqn:E; [|exact IH].
  intros H. injection H as <-. now apply andb_true_iff in E as [_ E].
Qed.

Lemma find_tool_call_message_has_calls (h : list Entry) (m : Message) :
  find_tool_call_message h = Ok (Some m) -> has_tool_calls m = true.
Proof. apply search_tool_call_message_has_calls. Qed.

(** The search goes past objects that are no tool-call message. *)
Lemma search_tool_call_message_past (before rest : list Entry) :
  forallb no_tool_call before = true ->
  search_tool_call_message (before ++ rest) = search_tool_call_message rest.
Proof.
  induction before as [|[a|v] before IH]; simpl;
    [reflexivity| |discriminate].
  intros H. apply andb_true_iff in H as [Ha H].
  unfold is_tool_call_message in Ha. apply negb_true_iff in Ha.
  rewrite Ha. auto.
Qed.

Lemma find_tool_call_message_none (h : list Entry) :
  forallb no_tool_call h = true -> find_tool_call_message h = Ok None.
Proof.
  intros H. unfold find_tool_call_message.
  rewrite <- (app_nil_r (rev h)).
  rewrite search_tool_call_message_past; [reflexivity|].
  now rewrite forallb_rev.
Qed.

Lemma find_tool_call_message_found (before : list Entry) (m : Message)
    (after : list Entry) :
  is_tool_call_message m = true ->
  forallb no_tool_call after = true ->
  find_tool_call_message (before ++ Obj m :: after) = Ok (Some m).
Proof.
  intros Hm Ha. unfold find_tool_call_message.
  rewrite rev_app_distr. simpl. rewrite <- app_assoc.
  rewrite search_tool_call_message_past by now rewrite forallb_rev.
  simpl. unfold is_tool_call_message in Hm. now rewrite Hm.
Qed.

Lemma find_tool_call_message_not_object (before : list Entry)
    (v : NonObject) (after : list Entry) :
  forallb no_tool_call after = true ->
  find_tool_call_message (before ++ NotObj v :: after)
    = Raise (entry_has_no_get v).
Proof.
  intros Ha. unfold find_tool_call_message.
  rewrite rev_app_distr. simpl. rewrite <- app_assoc.
  now rewrite search_tool_call_message_past by now rewrite forallb_rev.
Qed.

Lemma history_gives_truthy (o : RequestObject) (h : list Entry) :
  r_history o = HistList h -> dict_truthy o = true.
Proof.
  intros H. unfold dict_truthy. rewrite H. now destruct (r_message o).
Qed.

End ToolResult.

(** C2 (as amended). A POST to [/tool-call-result] with a JSON object in
    which [conversation_history] is a list of JSON objects none of which
    is an assistant message with a non-empty [tool_calls], at any
    position, is answered 400, and nothing is called for it: no tool, no
    model completion. The same holds when [conversation_history] is
    missing or is not a list, and when the body is [null], [false], zero
    or empty. When, going back from the end of the list, an entry that is
    not a JSON object is met before any such message, the request is
    answered 500 with the [AttributeError] of that entry; a body that is
    another JSON value than an object, or that cannot be read, is
    answered 500 as well; and again nothing is called. *)
Theorem tool_call_result_without_tool_call (W : World) (o : RequestObject)
    (st : St) :
  (forall h,
      r_history o = HistList h ->
      forallb no_tool_call h = true ->
      tool_call_result W (BodyDict o) st
        = (Ok (ErrorResponse 400
                 "No assistant message found in conversation history"), st)) /\
  (r_history o = HistAbsent \/ r_history o = HistNotList ->
   exists text,
     tool_call_result W (BodyDict o) st = (Ok (ErrorResponse 400 text), st)) /\
  (forall before v after,
      r_history o = HistList (before ++ NotObj v :: after) ->
      forallb no_tool_call after = true ->
      tool_call_result W (BodyDict o) st
        = (Ok (ErrorResponse 500 (exn_text (entry_has_no_get v))), st)) /\
  tool_call_result W BodyFalsy st
    = (Ok (ErrorResponse 400 "Missing JSON body"), st) /\
  (forall type,
      tool_call_result W (BodyNotDict type) st
        = (Ok (ErrorResponse 500
                 (sq ++ type ++ "' object has no attribute 'get'")), st)) /\
  (forall err,
      tool_call_result W (BodyUnparsable err) st
        = (Ok (ErrorResponse 500 err), st)).
Proof.
  split; [|split; [|split; [|split; [|split]]]]; try reflexivity.
  - intros h Hh Hnone.
    unfold tool_call_result, tool_call_result_body. run_monad.
    rewrite (history_gives_truthy _ Hh), Hh.
    now rewrite (find_tool_call_message_none _ Hnone).
  - unfold tool_call_result, tool_call_result_body. run_monad.
    destruct (dict_truthy o); [|now eexists].
    intros [-> | ->]; now eexists.
  - intros before v after Hh Hafter.
    unfold tool_call_result, tool_call_result_body. run_monad.
    rewrite (history_gives_truthy _ Hh), Hh.
    now rewrite (find_tool_call_message_not_object _ _ _ Hafter).
Qed.

Lemma tool_call_result_without_tool_call_witness :
  tool_call_result Sample.world
    (Sample.request None [Obj (user_msg "Hi"); Obj (assistant_msg "Hello!")])
    (fresh empty_session)
  = (Ok (ErrorResponse 400
           "No assistant message found in conversation history"),
     fresh empty_session) /\
  tool_call_result Sample.world
    (Sample.request None [Obj (user_msg "Hi"); NotObj (NStr "hi")])
    (fresh empty_session)
  = (Ok (ErrorResponse 500 "'str' object has no attribute 'get'"),
     fresh empty_session).
Proof.
  split.
  - apply (proj1 (tool_call_result_without_tool_call Sample.world
                    (mkRequest None
                       (HistList [Obj (user_msg "Hi");
                                  Obj (assistant_msg "Hello!")])
                       None false)
                    (fresh empty_session)) _ eq_refl).
    reflexivity.
  - apply (proj1 (proj2 (proj2
             (tool_call_result_without_tool_call Sample.world
                (mkRequest None
                   (HistList [Obj (user_msg "Hi"); NotObj (NStr "hi")])
                   None false)
                (fresh empty_session))))
             [Obj (user_msg "Hi")] (NStr "hi") [] eq_refl).
    reflexivity.
Defined.

(** C2 (as stated) fails when the pending tool-call message is not the
    last entry: here a finished round trip and a new user message follow
    it, and the request is answered 200 after the tool has run again and
    the model has been asked for a completion. *)
Lemma tool_call_result_earlier_tool_call :
  let asked :=
    mkMessage (Some "assistant") (Val "Processing your request...")
              (Val [Sample.pending_call "call_1" "fetch_cars"]) None in
  let h := [Obj (user_msg "Which Nissans do you have?"); Obj asked;
            Obj (tool_msg "call_1" "[...]");
            Obj (assistant_msg "We have an Altima and a Kicks.");
            Obj (user_msg "Thanks!")] in
  let again := h ++ [Obj (tool_msg "call_1" "[...]")] in
  no_tool_call (last h (Obj asked)) = true /\
  tool_call_result Sample.world (Sample.request None h)
                   (fresh empty_session)
    = (Ok (ToolResultResponse "Here is what I found."
             (again ++ [Obj (assistant_msg "Here is what I found.")]) JNull),
       mkSt [EvFetchCars (JObj []); EvCompletion again Plain] empty_session).
Proof. split; vm_compute; reflexivity. Qed.

Section RoundTrip.

Variable W : World.



(** The video tool returns what [videos_outcome] tells, and makes the
    calls it tells. *)
Lemma find_car_review_videos_run (car_make car_model year : json) (st : St) :
  find_car_review_videos W car_make car_model year st =
  (Ok (fst (videos_outcome W car_make car_model year)),
   extends st (snd (videos_outcome W car_make car_model year))).
Proof.
  unfold find_car_review_videos, videos_outcome, review_query, extends.
  run_monad. cbn [trace session].
  destruct (video_client_import_failure W); [reflexivity|].
  destruct (youtube_api_key W) as [[|a key]|]; cbn [negb Str.truthy];
    try reflexivity.
  destruct (youtube_build_failure W _); [reflexivity|].
  cbn [trace session]. rewrite <- app_assoc.
  now destruct (youtube_search W _).
Qed.











(** The route on a history whose pending message is [m]. *)
Lemma tool_call_result_run (o : RequestObject) (h : list Entry)
    (m : Message) (st : St) :
  r_history o = HistList h ->
  find_tool_call_message h = Ok (Some m) ->
  tool_call_result W (BodyDict o) st =
  match process_tool_calls W (calls_of m) h st with
  | (Ok (inl response), st') => (Ok response, st')
  | (Ok (inr h'), st') =>
      match finalize W h' st' with
      | (Ok response, st'') => (Ok response, st'')
      | (Raise e, st'') => (Ok (ErrorResponse 500 (exn_text e)), st'')
      end
  | (Raise e, st') => (Ok (ErrorResponse 500 (exn_text e)), st')
  end.
Proof.
  intros Hh Hfind. unfold tool_call_result, tool_call_result_body. run_monad.
  rewrite (history_gives_truthy _ Hh), Hh, Hfind.
  rewrite (find_tool_call_message_has_calls _ Hfind). cbn [negb].
  destruct (process_tool_calls W (calls_of m) h st) as [[[resp|h']|e] st'];
    reflexivity.
Qed.

End RoundTrip.




(* ===================================================================== *)
(** * Further properties: inventory search and range filters *)
(* ===================================================================== *)

Section Search.

Variable W : World.

Lemma in_firstn {A : Type} (n : nat) (l : list A) (x : A) :
  In x (firstn n l) -> In x l.
Proof.
  intros H. rewrite <- (firstn_skipn n l). apply in_or_app. now left.
Qed.

Lemma forallb_search_query_of (search_query : string)
    (filters : SearchFilters) (c : CarInventory) :
  forallb (fun f => f c) (search_query_of W search_query filters) =
  criterion (text_given (s_make filters))
    (fun x c => String.eqb (car_make c) x) c &&
  criterion (text_given (s_model filters))
    (fun x c => String.eqb (car_model c) x) c &&
  criterion (s_min_price filters) (fun x c => Qle_bool x (car_price c)) c &&
  criterion (s_max_price filters) (fun x c => Qle_bool (car_price c) x) c &&
  criterion (year_given (s_year filters))
    (fun x c => Z.eqb (car_year c) x) c &&
  (if Str.truthy search_query then text_hit W search_query c else true).
Proof.
  unfold search_query_of.
  destruct (Str.truthy search_query).
  - unfold q_filter. rewrite forallb_app, !forallb_filter_when. simpl.
    now rewrite andb_true_r.
  - rewrite !forallb_filter_when. simpl. now rewrite andb_true_r.
Qed.

Lemma number_given_some (q : Q) : ~ q == -1 -> number_given (Some q) = Some q.
Proof.
  intros H. unfold number_given.
  destruct (Qeq_bool q (-1)) eqn:E; [|reflexivity].
  apply Qeq_bool_iff in E. contradiction.
Qed.

Lemma search_car_inventory_rows (search_query : string)
    (filters : SearchFilters) (limit : nat) :
  forall c,
    In c (search_car_inventory W search_query filters limit) ->
    In c (inventory W) /\
    (forall s, s_make filters = Some s -> s <> "" -> car_make c = s) /\
    (forall s, s_model filters = Some s -> s <> "" -> car_model c = s) /\
    (forall p, s_min_price filters = Some p -> p <= car_price c) /\
    (forall p, s_max_price filters = Some p -> car_price c <= p) /\
    (forall y, s_year filters = Some y -> y <> 0%Z -> car_year c = y) /\
    (search_query <> "" -> text_hit W search_query c = true).
Proof.
  intros c Hin. apply in_firstn in Hin.
  unfold q_all in Hin. apply filter_In in Hin as [Hinv Hm].
  rewrite forallb_search_query_of in Hm.
  repeat (apply andb_true_iff in Hm as [Hm ?]).
  split; [exact Hinv|].
  split; [intros s Hs Hne; rewrite Hs, (text_given_some Hne) in Hm;
          now apply String.eqb_eq in Hm|].
  split; [intros s Hs Hne;
          match goal with
          | H : criterion (text_given (s_model filters)) _ c = true |- _ =>
              rewrite Hs, (text_given_some Hne) in H;
              now apply String.eqb_eq in H
          end|].
  split; [intros p Hp;
          match goal with
          | H : criterion (s_min_price filters) _ c = true |- _ =>
              rewrite Hp in H; now apply Qle_bool_iff in H
          end|].
  split; [intros p Hp;
          match goal with
          | H : criterion (s_max_price filters) _ c = true |- _ =>
              rewrite Hp in H; now apply Qle_bool_iff in H
          end|].
  split.
  - intros y Hy Hne.
    match goal with
    | H : criterion (year_given (s_year filters)) _ c = true |- _ =>
        rewrite Hy in H; unfold year_given in H;
        destruct (Z.eqb_spec y 0); [contradiction|];
        now apply Z.eqb_eq in H
    end.
  - intros Hq.
    match goal with
    | H : (if Str.truthy search_query then _ else _) = true |- _ =>
        destruct search_query; [congruence|exact H]
    end.
Qed.

End Search.

(** X1. [search_car_inventory] returns at most [limit] rows, each a row of
    the inventory that has exactly the make and the model asked for, a
    price within the bounds given, exactly the year asked for, and, when a
    search text is given, a make, model or description the text matches. *)
Theorem search_car_inventory_sound (W : World) (search_query : string)
    (filters : SearchFilters) (limit : nat) :
  (List.length (search_car_inventory W search_query filters limit)
     <= limit)%nat /\
  (forall c,
      In c (search_car_inventory W search_query filters limit) ->
      In c (inventory W) /\
      (forall s, s_make filters = Some s -> s <> "" -> car_make c = s) /\
      (forall s, s_model filters = Some s -> s <> "" -> car_model c = s) /\
      (forall p, s_min_price filters = Some p -> p <= car_price c) /\
      (forall p, s_max_price filters = Some p -> car_price c <= p) /\
      (forall y, s_year filters = Some y -> y <> 0%Z -> car_year c = y) /\
      (search_query <> "" -> text_hit W search_query c = true)).
Proof.
  split; [apply firstn_le_length|].
  apply search_car_inventory_rows.
Qed.

(** X3. Zero is treated differently by the two kinds of numeric filter of
    [search_car_inventory]: a year of 0 selects like a missing year (and an
    empty make or model like a missing one), whereas a minimum price of 0
    is a bound that every returned row meets. *)
Theorem search_car_inventory_zero (W : World) (search_query : string)
    (make model : option string) (lo hi : option Q) (limit : nat) :
  search_car_inventory W search_query
    (mkSearchFilters make model lo hi (Some 0%Z)) limit
  = search_car_inventory W search_query
      (mkSearchFilters make model lo hi None) limit /\
  search_car_inventory W search_query
    (mkSearchFilters (Some "") (Some "") lo hi None) limit
  = search_car_inventory W search_query
      (mkSearchFilters None None lo hi None) limit /\
  (forall c year,
      In c (search_car_inventory W search_query
              (mkSearchFilters make model (Some 0) hi year) limit) ->
      0 <= car_price c).
Proof.
  split; [reflexivity|]. split; [reflexivity|].
  intros c year Hin.
  now apply (@search_car_inventory_rows W search_query _ limit c Hin).
Qed.

(** X4. The numeric filters of [fetch_cars] are inclusive bounds: when a
    field holds a number other than -1, every row returned has a year, a
    price or a mileage on the right side of it, the bound included. *)
Theorem fetch_cars_ranges (W : World) (fp : InventoryFilter) (c : CarInventory) :
  In c (fetch_cars_rows W fp) ->
  In c (inventory W) /\
  (forall y, f_year fp = Some y -> ~ y == -1 -> y <= inject_Z (car_year c)) /\
  (forall y, f_max_year fp = Some y -> ~ y == -1 ->
             inject_Z (car_year c) <= y) /\
  (forall p, f_price fp = Some p -> ~ p == -1 -> p <= car_price c) /\
  (forall p, f_max_price fp = Some p -> ~ p == -1 -> car_price c <= p) /\
  (forall k, f_mileage fp = Some k -> ~ k == -1 ->
             inject_Z (car_mileage c) <= k).
Proof.
  intros Hin. rewrite fetch_cars_rows_matches in Hin.
  apply filter_In in Hin as [Hinv Hm].
  unfold matches, matches_other in Hm.
  repeat match goal with
         | H : _ && _ = true |- _ => apply andb_true_iff in H as [? ?]
         end.
  split; [exact Hinv|].
  repeat split; intros x Hx Hne;
    match goal with
    | H : criterion (number_given ?f) _ c = true |- _ =>
        rewrite Hx, (number_given_some Hne) in H;
        now apply Qle_bool_iff in H
    end.
Qed.

Lemma fetch_cars_ranges_witness :
  2020 <= inject_Z (car_year Sample.car_a) /\
  car_price Sample.car_a <= 24500.
Proof.
  pose proof (@fetch_cars_ranges Sample.world
                (mkFilter None None None None None
                          (Some 2020) None None (Some 24500) None)
                Sample.car_a ltac:(vm_compute; now left)) as H.
  split.
  - apply (proj1 (proj2 H) 2020 eq_refl). discriminate.
  - apply (proj1 (proj2 (proj2 (proj2 (proj2 H)))) 24500 eq_refl).
    discriminate.
Defined.

(* ===================================================================== *)
(** * Further properties: storing and reading back a summary *)
(* ===================================================================== *)

Section Stored.

Variable W : World.

Lemma dict_lookup_set_same (k : string) (v : json) (d : Dict.t) :
  Dict.lookup k (Dict.set k v d) = Some v.
Proof.
  induction d as [|[k' v'] d IH]; simpl.
  - now rewrite String.eqb_refl.
  - destruct (String.eqb k k') eqn:E; simpl.
    + now rewrite String.eqb_refl.
    + now rewrite E.
Qed.

Lemma dict_lookup_set_other (k k' : string) (v : json) (d : Dict.t) :
  k' <> k -> Dict.lookup k' (Dict.set k v d) = Dict.lookup k' d.
Proof.
  intros Hne. induction d as [|[k0 v0] d IH]; simpl.
  - destruct (String.eqb_spec k' k); [contradiction|reflexivity].
  - destruct (String.eqb_spec k k0) as [->|]; simpl.
    + destruct (String.eqb_spec k' k0); [contradiction|reflexivity].
    + now rewrite IH.
Qed.

(** What [save_summary_to_db] does in each of its two outcomes. *)
Lemma save_summary_to_db_cases (summary_data : json) (st : St) :
  (exists s t k i u n,
      json_item summary_data "summary" = Ok s /\
      json_item summary_data "sentiment" = Ok t /\
      json_item summary_data "keywords" = Ok k /\
      json_item summary_data "insights" = Ok i /\
      json_get i "urgency" = Ok u /\
      json_get_default i "additional_notes" (JStr "") = Ok n /\
      save_summary_to_db W summary_data st =
        (Ok true,
         mkSt (trace st
                 ++ [EvDbAdd (mkInteraction s t k (json_is_str u "high") n)]
                 ++ [EvDbCommit])
              (mkSession
                 (committed (session st) ++ pending (session st)
                    ++ [mkInteraction s t k (json_is_str u "high") n])
                 []))) \/
  (exists events,
      forallb is_bookkeeping events = true /\
      save_summary_to_db W summary_data st =
        (Ok false,
         mkSt (trace st ++ events) (mkSession (committed (session st)) []))).
Proof.
  unfold save_summary_to_db. run_monad.
  destruct (json_item summary_data "summary") as [s|] eqn:Hs; run_monad;
    [|right; exists [EvDbRollback]; split; reflexivity].
  destruct (json_item summary_data "sentiment") as [t|] eqn:Ht; run_monad;
    [|right; exists [EvDbRollback]; split; reflexivity].
  destruct (json_item summary_data "keywords") as [k|] eqn:Hk; run_monad;
    [|right; exists [EvDbRollback]; split; reflexivity].
  destruct (json_item summary_data "insights") as [i|] eqn:Hi; run_monad;
    [|right; exists [EvDbRollback]; split; reflexivity].
  destruct (json_get i "urgency") as [u|] eqn:Hu; run_monad;
    [|right; exists [EvDbRollback]; split; reflexivity].
  destruct (json_get_default i "additional_notes" (JStr "")) as [n|] eqn:Hn;
    run_monad; [|right; exists [EvDbRollback]; split; reflexivity].
  cbn [trace session committed pending].
  destruct (commit_failure W _) as [e|]; run_monad.
  - right.
    exists [EvDbAdd (mkInteraction s t k (json_is_str u "high") n);
            EvDbCommit; EvDbRollback].
    split; [reflexivity|]. cbn [trace session committed pending].
    rewrite <- ?app_assoc. reflexivity.
  - left. exists s, t, k, i, u, n.
    split; [reflexivity|]. split; [reflexivity|]. split; [reflexivity|].
    split; [reflexivity|]. split; [exact Hu|]. split; [exact Hn|].
    cbn [trace session committed pending].
    rewrite <- ?app_assoc. reflexivity.
Qed.

End Stored.

(** X5. [save_summary_to_db] never raises and never leaves a row pending:
    either it returns true and the committed rows have grown by the rows
    that were pending and the new one, or it returns false and the
    committed rows are the ones from before the call. *)
Theorem save_summary_to_db_session (W : World) (summary_data : json)
    (st : St) :
  exists ok st',
    save_summary_to_db W summary_data st = (Ok ok, st') /\
    pending (session st') = [] /\
    (if ok
     then exists row,
            committed (session st')
              = committed (session st) ++ pending (session st) ++ [row]
     else committed (session st') = committed (session st)).
Proof.
  destruct (save_summary_to_db_cases W summary_data st)
    as [(s & t & k & i & u & n & _ & _ & _ & _ & _ & _ & ->)
       | (events & _ & ->)].
  - eexists true, _. repeat split. now eexists.
  - eexists false, _. repeat split.
Qed.

(** X6. [get_conversation_summary] does not look the id up: it answers
    from the newest row whatever id is asked for, and only copies the id
    into the result. Two ids get results that differ in the
    [conversation_id] key alone, and there is no result exactly when the
    table is empty or the query raises. *)
Theorem get_conversation_summary_ignores_id (W : World)
    (latest : result (option StoredInteraction)) (a b : string) :
  (get_conversation_summary W latest a = None <->
   (latest = Ok None \/ exists e, latest = Raise e)) /\
  (forall s,
      get_conversation_summary W latest a = Some s ->
      exists kvs,
        s = JObj kvs /\
        Dict.lookup "conversation_id" kvs = Some (JStr a) /\
        get_conversation_summary W latest b
          = Some (JObj (Dict.set "conversation_id" (JStr b) kvs))).
Proof.
  split.
  - destruct latest as [[row|]|e]; simpl; split; try discriminate; auto.
    + intros [H | [e H]]; discriminate.
    + intros _. right. now exists e.
  - intros s. destruct latest as [[row|]|e]; simpl; try discriminate.
    intros H. injection H as <-. eexists. repeat split.
Qed.

(** X7. [GET /get-summary/<id>] answers 200 with a summary or 404, never
    500: 404 exactly when the table is empty or the query raises, and
    otherwise a summary whose department is Sales and whose urgency is
    high or medium, whatever was stored. *)
Theorem get_summary_status (W : World)
    (latest : result (option StoredInteraction)) (id : string) :
  (status_of (get_summary W latest id) = 404%Z <->
   (latest = Ok None \/ exists e, latest = Raise e)) /\
  (forall row,
      latest = Ok (Some row) ->
      exists s insights,
        get_summary W latest id = SummaryResponse s /\
        json_item s "department" = Ok (JStr "Sales") /\
        json_item s "insights" = Ok insights /\
        (json_item insights "urgency" = Ok (JStr "high") \/
         json_item insights "urgency" = Ok (JStr "medium"))).
Proof.
  split.
  - unfold get_summary.
    destruct latest as [[row|]|e]; simpl; split; try discriminate; auto.
    + intros [H | [e H]]; discriminate.
    + intros _. right. now exists e.
  - intros row ->. unfold get_summary. simpl.
    eexists _, _. repeat split.
    destruct (priority_flag (stored row)); [now left|now right].
Qed.

(** X8. What is stored and read back. When [save_summary_to_db] returns
    true for a summary, the row it has committed last, read back through
    [get_conversation_summary], gives the summary's sentiment, keywords
    and summary text; the department comes back as Sales whatever it was,
    and the urgency as high when it was high and as medium otherwise. *)
Theorem saved_summary_read_back (W : World) (summary_data : json)
    (st st' : St) :
  save_summary_to_db W summary_data st = (Ok true, st') ->
  exists row urgency,
    committed (session st')
      = committed (session st) ++ pending (session st) ++ [row] /\
    (exists insights,
        json_item summary_data "insights" = Ok insights /\
        json_get insights "urgency" = Ok urgency) /\
    forall created_at id,
    exists got insights,
      get_conversation_summary W (Ok (Some (mkStored row created_at))) id
        = Some got /\
      json_item got "sentiment" = json_item summary_data "sentiment" /\
      json_item got "keywords" = json_item summary_data "keywords" /\
      json_item got "summary" = json_item summary_data "summary" /\
      json_item got "department" = Ok (JStr "Sales") /\
      json_item got "insights" = Ok insights /\
      json_item insights "urgency"
        = Ok (JStr (if json_is_str urgency "high" then "high" else "medium")).
Proof.
  intros Hsave.
  destruct (save_summary_to_db_cases W summary_data st)
    as [(s & t & k & i & u & n & Hs & Ht & Hk & Hi & Hu & Hn & Heq)
       | (events & _ & Heq)];
    rewrite Heq in Hsave; [|discriminate].
  injection Hsave as <-.
  exists (mkInteraction s t k (json_is_str u "high") n), u.
  split; [reflexivity|]. split; [now exists i|].
  intros created_at id. eexists _, _.
  split; [reflexivity|]. rewrite Hs, Ht, Hk.
  repeat (split; [reflexivity|]). reflexivity.
Qed.

Lemma saved_summary_read_back_witness :
  exists got,
    get_conversation_summary Sample.world
      (Ok (Some (mkStored
                   (mkInteraction (JStr "Customer asked about a test drive.")
                      (JStr "positive") (JArr [JStr "test drive"]) true
                      (JStr "Call back today."))
                   None)))
      "abc"
      = Some got /\
    json_item got "sentiment" = Ok (JStr "positive").
Proof.
  destruct (@saved_summary_read_back Sample.world Sample.good_summary
              (fresh empty_session) _ eq_refl)
    as (row & urgency & Hrow & _ & Hget).
  injection Hrow as <-.
  destruct (Hget None "abc") as (got & insights & Hgot & Hs & _).
  exists got. split; [exact Hgot|exact Hs].
Defined.

Section SummaryId.

Variable W : World.

(** On a history the filter accepts, a summary is returned, and it is
    tagged with the id. *)
Lemma generate_conversation_summary_tagged (h kept : list Entry)
    (cid : json) (st : St) :
  filter_for_summary h = Ok kept ->
  exists s,
    fst (generate_conversation_summary W h cid st) = Ok s /\
    json_item s "conversation_id" = Ok (effective_id W cid).
Proof.
  intros Hf.
  assert (Hdef : forall e,
             json_item (default_summary (effective_id W cid) e)
                       "conversation_id" = Ok (effective_id W cid))
    by reflexivity.
  destruct (chat_completion W (Obj summary_prompt :: kept) JsonObject)
    as [r|e] eqn:Hc.
  - destruct (loads_content W (c_content r)) as [v|e] eqn:Hl.
    + destruct v as [| | | | | |kvs];
        try (destruct (@generate_on_non_object W h kept cid st r _ Hf Hc Hl
                         ltac:(discriminate)) as (e & _ & ->);
             eexists; split; [reflexivity|apply Hdef]).
      destruct (record_analytics W r) as [e|] eqn:Ha.
      * rewrite (@generate_on_analytics_failure W h kept cid st r kvs e
                   Hf Hc Hl Ha).
        eexists; split; [reflexivity|apply Hdef].
      * rewrite (@generate_on_object W h kept cid st r kvs Hf Hc Hl Ha).
        eexists; split; [reflexivity|].
        simpl. now rewrite dict_lookup_set_same.
    + rewrite (@generate_on_parse_failure W h kept cid st r e Hf Hc Hl).
      eexists; split; [reflexivity|apply Hdef].
  - rewrite (@generate_on_transport_failure W h kept cid st e Hf Hc).
    eexists; split; [reflexivity|apply Hdef].
Qed.

Lemma effective_id_truthy (cid : json) :
  json_truthy cid = true -> effective_id W cid = cid.
Proof. intros H. unfold effective_id. now rewrite H. Qed.

End SummaryId.

(** X9. Every summary [generate_conversation_summary] returns carries the
    conversation id under [conversation_id]: the caller's id when it is a
    truthy value, a fresh one otherwise; this holds for the model's
    summary and for the default summary alike. On a history of JSON
    objects a summary is returned, so tagged, in every case. *)
Theorem generate_conversation_summary_id (W : World) (cid : json) (st : St) :
  (forall (h : list Entry) s,
      fst (generate_conversation_summary W h cid st) = Ok s ->
      json_item s "conversation_id" = Ok (effective_id W cid) /\
      (json_truthy cid = true -> json_item s "conversation_id" = Ok cid)) /\
  (forall h : list Message,
      exists s,
        fst (generate_conversation_summary W (map Obj h) cid st) = Ok s /\
        json_item s "conversation_id" = Ok (effective_id W cid) /\
        (json_truthy cid = true -> json_item s "conversation_id" = Ok cid)).
Proof.
  split.
  - intros h s Hs.
    destruct (filter_for_summary h) as [kept|e] eqn:Hf.
    + destruct (generate_conversation_summary_tagged W h cid st Hf)
        as (s' & Hs' & Hid).
      rewrite Hs in Hs'. injection Hs' as <-.
      split; [exact Hid|].
      intros Ht. now rewrite Hid, effective_id_truthy.
    + rewrite (generate_on_filter_failure W h cid st Hf) in Hs.
      discriminate Hs.
  - intros h.
    destruct (generate_conversation_summary_tagged W (map Obj h) cid st
                (filter_for_summary_objects h)) as (s & Hs & Hid).
    exists s. split; [exact Hs|]. split; [exact Hid|].
    intros Ht. now rewrite Hid, effective_id_truthy.
Qed.

(* ===================================================================== *)
(** * Further properties: the detector and the insertion step *)
(* ===================================================================== *)

Section DetectorMore.

Variable W : World.

Lemma last_n_app_long {A : Type} (n : nat) (pre l : list A) :
  (n <= List.length l)%nat -> last_n n (pre ++ l) = last_n n l.
Proof.
  intros H. unfold last_n. rewrite length_app, skipn_app.
  replace (List.length pre + List.length l - n - List.length pre)%nat
    with (List.length l - n)%nat by lia.
  rewrite skipn_all2 by lia. reflexivity.
Qed.

Lemma lower_ascii_idempotent (c : ascii) :
  Str.lower_ascii (Str.lower_ascii c) = Str.lower_ascii c.
Proof.
  destruct c as [[] [] [] [] [] [] [] []]; vm_compute; reflexivity.
Qed.

Lemma lower_idempotent (s : string) : Str.lower (Str.lower s) = Str.lower s.
Proof.
  induction s as [|c s IH]; simpl; [reflexivity|].
  now rewrite lower_ascii_idempotent, IH.
Qed.

Lemma lower_ascii_keeps_ascii (c : ascii) :
  Str.is_ascii_char (Str.lower_ascii c) = Str.is_ascii_char c.
Proof.
  destruct c as [[] [] [] [] [] [] [] []]; vm_compute; reflexivity.
Qed.

Lemma lower_keeps_ascii (s : string) :
  Str.is_ascii (Str.lower s) = Str.is_ascii s.
Proof.
  induction s as [|c s IH]; simpl; [reflexivity|].
  now rewrite lower_ascii_keeps_ascii, IH.
Qed.

(** Lower-casing ASCII text twice is lower-casing it once. *)
Lemma py_lower_idempotent (s : string) :
  Str.is_ascii s = true -> py_lower W (py_lower W s) = py_lower W s.
Proof.
  intros H. rewrite (py_lower_ascii W s H).
  rewrite py_lower_ascii by now rewrite lower_keeps_ascii.
  apply lower_idempotent.
Qed.

Lemma scan_lower_entry (l : list Entry) :
  forallb ascii_content l = true ->
  scan_for_end W (map (lower_entry W) l) = scan_for_end W l.
Proof.
  induction l as [|[m|v] l IH]; simpl; [reflexivity| |reflexivity].
  intros H. apply andb_true_iff in H as [Hm H].
  unfold role_is, get_content, lower_message at 1 2. simpl.
  destruct (role m) as [r|]; [|now apply IH].
  destruct (String.eqb r "assistant"); [|now apply IH].
  destruct (content m) as [| |c]; simpl; try reflexivity.
  - now rewrite IH.
  - rewrite (py_lower_idempotent c Hm). now rewrite IH.
Qed.

Lemma forallb_skipn {A : Type} (p : A -> bool) (n : nat) (l : list A) :
  forallb p l = true -> forallb p (skipn n l) = true.
Proof.
  intros H. rewrite <- (firstn_skipn n l), forallb_app in H.
  now apply andb_true_iff in H as [_ H].
Qed.

Lemma scan_without_assistant (l : list Entry) :
  Forall (fun e => exists m, e = Obj m /\ role_is "assistant" m = false) l ->
  scan_for_end W l = Ok false.
Proof.
  induction 1 as [|e l (m & -> & Hm) _ IH]; simpl; [reflexivity|].
  now rewrite Hm.
Qed.

End DetectorMore.

(** X10. The detector does not see messages older than the last five:
    putting any messages in front of a transcript of at least five
    messages leaves its outcome (true, false, or the exception) as
    it was. *)
Theorem detect_end_of_conversation_older_messages (W : World)
    (older h : list Entry) :
  (5 <= List.length h)%nat ->
  detect_end_of_conversation W (older ++ h) = detect_end_of_conversation W h.
Proof.
  intros H.
  rewrite !detect_on_window by (rewrite ?length_app; lia).
  now rewrite last_n_app_long.
Qed.

Lemma detect_end_of_conversation_older_messages_witness :
  detect_end_of_conversation Sample.world
    ([Obj (assistant_msg "Goodbye!");
      Obj (user_msg "Wait, one more question")]
       ++ [Obj (user_msg "a"); Obj (assistant_msg "b"); Obj (user_msg "c");
           Obj (assistant_msg "d"); Obj (user_msg "e")])
  = detect_end_of_conversation Sample.world
      [Obj (user_msg "a"); Obj (assistant_msg "b"); Obj (user_msg "c");
       Obj (assistant_msg "d"); Obj (user_msg "e")].
Proof.
  apply detect_end_of_conversation_older_messages. simpl. lia.
Defined.

(** X11. On ASCII text the detector does not depend on letter case: for
    a transcript whose message contents are ASCII text, lower-casing the
    content of every message leaves the outcome as it was. *)
Theorem detect_end_of_conversation_case (W : World) (h : list Entry) :
  forallb ascii_content h = true ->
  detect_end_of_conversation W (map (lower_entry W) h)
    = detect_end_of_conversation W h.
Proof.
  intros H. unfold detect_end_of_conversation, last_n.
  rewrite length_map.
  destruct (List.length h <? 3)%nat; [reflexivity|].
  rewrite skipn_map, <- map_rev. apply scan_lower_entry.
  rewrite forallb_rev. now apply forallb_skipn.
Qed.

Lemma detect_end_of_conversation_case_witness :
  let h := [Obj (user_msg "That is all, THANKS");
            Obj (assistant_msg "GOODBYE, and Have A Great Day!");
            Obj (user_msg "Bye")] in
  detect_end_of_conversation Sample.world h = Ok true /\
  detect_end_of_conversation Sample.world (map (lower_entry Sample.world) h)
    = detect_end_of_conversation Sample.world h.
Proof.
  split; [reflexivity|].
  apply (detect_end_of_conversation_case Sample.world
           [Obj (user_msg "That is all, THANKS");
            Obj (assistant_msg "GOODBYE, and Have A Great Day!");
            Obj (user_msg "Bye")]).
  reflexivity.
Defined.

(** X12. When the last five entries are objects none of which is an
    assistant message, the detector returns false and does not raise,
    whatever the user, system and tool messages say or hold. *)
Theorem detect_end_of_conversation_no_assistant (W : World)
    (h : list Entry) :
  Forall (fun e => exists m, e = Obj m /\ role_is "assistant" m = false)
         (last_n 5 h) ->
  detect_end_of_conversation W h = Ok false.
Proof.
  intros H. unfold detect_end_of_conversation.
  destruct (List.length h <? 3)%nat; [reflexivity|].
  apply scan_without_assistant. apply Forall_rev. exact H.
Qed.

Lemma detect_end_of_conversation_no_assistant_witness :
  detect_end_of_conversation Sample.world
    [Obj (user_msg "Goodbye, have a great day");
     Obj (mkMessage (Some "tool") Null Absent (Some "call_1"));
     Obj (user_msg "bye")]
  = Ok false.
Proof.
  apply detect_end_of_conversation_no_assistant.
  repeat (constructor; [eexists; split; reflexivity|]). constructor.
Defined.

(** X13. The insertion step keeps the incoming entries, in their order
    and unchanged: what it returns is the incoming transcript with at most
    the persona message put in front and at most one time-context message
    put behind. The persona message is put in front exactly when the
    transcript is empty or no system message in it contains the persona
    marker, and a system message of the caller that contains the marker
    keeps it out. *)
Theorem ensure_system_context_shape (now : string) (h h' : list Entry) :
  ensure_system_context now h = Ok h' ->
  exists front back,
    h' = front ++ h ++ back /\
    (front = [] \/ front = [Obj system_message]) /\
    (back = [] \/ back = [Obj (time_context_message now)]) /\
    (front = [] <-> any_system_with persona_marker h = Ok true) /\
    (back = [] <-> any_system_with time_marker (front ++ h) = Ok true).
Proof.
  unfold ensure_system_context.
  destruct (any_system_with persona_marker h) as [has_system|e] eqn:Hp;
    [|discriminate].
  assert (Hfront : exists front,
             (if is_empty h || negb has_system
              then Obj system_message :: h else h) = front ++ h /\
             (front = [] \/ front = [Obj system_message]) /\
             (front = [] <-> Ok has_system = Ok true)).
  { destruct (is_empty h || negb has_system) eqn:E.
    - exists [Obj system_message]. repeat split; auto; try discriminate.
      intros H. injection H as ->. rewrite orb_false_r in E.
      destruct h; [discriminate Hp|discriminate E].
    - exists []. apply orb_false_iff in E as [_ E].
      apply negb_false_iff in E. subst. repeat split; auto. }
  destruct Hfront as (front & -> & Hfront & Hiff).
  destruct (any_system_with time_marker (front ++ h)) as [has_time|e] eqn:Ht;
    [|discriminate].
  intros H. injection H as <-. exists front.
  destruct has_time; simpl.
  - exists []. rewrite app_nil_r.
    split; [reflexivity|]. split; [exact Hfront|]. split; [now left|].
    split; [exact Hiff|]. split; auto.
  - exists [Obj (time_context_message now)]. rewrite <- app_assoc.
    split; [reflexivity|]. split; [exact Hfront|]. split; [now right|].
    split; [exact Hiff|].
    split; intros H; [discriminate H|rewrite Ht in H; discriminate H].
Qed.

Lemma ensure_system_context_shape_witness :
  exists front back,
    [Obj (system_msg "You are Patricia, but answer in rhymes.");
     Obj (user_msg "Hi"); Obj (time_context_message "noon")]
    = front ++ [Obj (system_msg "You are Patricia, but answer in rhymes.");
                Obj (user_msg "Hi")] ++ back /\
    front = [].
Proof.
  destruct (@ensure_system_context_shape "noon"
              [Obj (system_msg "You are Patricia, but answer in rhymes.");
               Obj (user_msg "Hi")] _ eq_refl)
    as (front & back & Heq & _ & _ & Hfront & _).
  exists front, back. split; [exact Heq|].
  apply Hfront. reflexivity.
Defined.

(* ===================================================================== *)
(** * Further properties: review videos *)
(* ===================================================================== *)

(** X14. [find_car_review_videos] never raises: it always returns a
    dictionary with a list under [videos]. When the client library cannot
    be imported, when no API key is set (or it is empty), or when building
    the client fails, no search request is sent, the list is empty and an
    [error] key says why. Otherwise one search request is sent, for the
    make and the model, the year when it is truthy, and [review]; when the
    request fails the list is empty and [error] holds the failure's
    text. *)
Theorem find_car_review_videos_degrades (W : World)
    (car_make car_model year : json) (st : St) :
  (exists body videos st',
      find_car_review_videos W car_make car_model year st
        = (Ok (JObj body), st') /\
      Dict.lookup "videos" body = Some (JArr videos)) /\
  (forall e,
      video_client_import_failure W = Some e ->
      find_car_review_videos W car_make car_model year st
        = (Ok (videos_error
                 ("Failed to search for car review videos: " ++ exn_text e)),
           extends st [EvFindVideos car_make car_model year])) /\
  (video_client_import_failure W = None ->
   (youtube_api_key W = None \/ youtube_api_key W = Some "") ->
   find_car_review_videos W car_make car_model year st
     = (Ok (videos_error
              "YouTube API key not configured. Please set the YOUTUBE_API_KEY environment variable."),
        extends st [EvFindVideos car_make car_model year])) /\
  (forall key e,
      video_client_import_failure W = None ->
      youtube_api_key W = Some key -> key <> "" ->
      youtube_build_failure W key = Some e ->
      find_car_review_videos W car_make car_model year st
        = (Ok (videos_error
                 ("Failed to search for car review videos: " ++ exn_text e)),
           extends st [EvFindVideos car_make car_model year])) /\
  (forall key,
      video_client_import_failure W = None ->
      youtube_api_key W = Some key -> key <> "" ->
      youtube_build_failure W key = None ->
      let named := (fmt W car_make ++ " " ++ fmt W car_model)%string in
      let query :=
        ((if json_truthy year then named ++ " " ++ fmt W year else named)
           ++ " review")%string in
      find_car_review_videos W car_make car_model year st =
      (Ok (match youtube_search W query with
           | Ok items => JObj [("videos", JArr (map video_json items))]
           | Raise e =>
               videos_error
                 ("Failed to search for car review videos: " ++ exn_text e)
           end),
       extends st [EvFindVideos car_make car_model year;
                   EvVideoSearch query])).
Proof.
  rewrite find_car_review_videos_run. unfold videos_outcome.
  split; [|split; [|split; [|split]]].
  - destruct (video_client_import_failure W);
      [eexists _, _, _; split; reflexivity|].
    destruct (youtube_api_key W) as [[|a key]|];
      try (eexists _, _, _; split; reflexivity).
    destruct (youtube_build_failure W _);
      [eexists _, _, _; split; reflexivity|].
    cbn [fst snd].
    destruct (youtube_search W _); eexists _, _, _; split; reflexivity.
  - intros e ->. reflexivity.
  - intros -> [-> | ->]; reflexivity.
  - intros key e -> -> Hkey Hb.
    destruct key as [|a key]; [congruence|]. now rewrite Hb.
  - intros key -> -> Hkey Hb.
    destruct key as [|a key]; [congruence|]. rewrite Hb. cbn [fst snd].
    reflexivity.
Qed.

Lemma find_car_review_videos_degrades_witness :
  find_car_review_videos sample_world_with_videos
    (JStr "Nissan") (JStr "Kicks") (JInt 2025) (fresh empty_session)
  = (Ok (JObj [("videos", JArr [video_json sample_video])]),
     mkSt [EvFindVideos (JStr "Nissan") (JStr "Kicks") (JInt 2025);
           EvVideoSearch "Nissan Kicks 2025 review"] empty_session).
Proof.
  apply (proj2 (proj2 (proj2 (proj2
           (find_car_review_videos_degrades sample_world_with_videos
              (JStr "Nissan") (JStr "Kicks") (JInt 2025)
              (fresh empty_session)))))
           "key" eq_refl eq_refl ltac:(discriminate) eq_refl).
Defined.

Section VideoRoute.

Variable W : World.

(** The tool returns a dictionary with a list of videos and makes tool
    calls only. *)
Lemma find_car_review_videos_returns (car_make car_model year : json)
    (st : St) :
  exists body videos events,
    find_car_review_videos W car_make car_model year st
      = (Ok (JObj body), extends st events) /\
    Dict.lookup "videos" body = Some (JArr videos) /\
    forallb is_tool_event events = true.
Proof.
  rewrite find_car_review_videos_run. unfold videos_outcome.
  destruct (video_client_import_failure W);
    [eexists _, _, _; repeat split; reflexivity|].
  destruct (youtube_api_key W) as [[|a key]|];
    try (eexists _, _, _; repeat split; reflexivity).
  destruct (youtube_build_failure W _);
    [eexists _, _, _; repeat split; reflexivity|].
  cbn [fst snd].
  destruct (youtube_search W _);
    eexists _, _, _; repeat split; reflexivity.
Qed.

End VideoRoute.

(** X15. [POST /car-review-videos] always answers with a JSON object that
    has a list under [videos], with status 200, 400 or 500, and never lets
    an exception through. A body without a make or without a model (the
    key missing, [null] or empty) is answered 400 with no call made; a
    body that is not an object, or a request whose body cannot be read, is
    answered 500 with no call made. *)
Theorem car_review_videos_answers (W : World) (data : result json) (st : St) :
  (exists status body videos st',
      car_review_videos W data st = (Ok (status, JObj body), st') /\
      Dict.lookup "videos" body = Some (JArr videos) /\
      (status = 200 \/ status = 400 \/ status = 500)%Z) /\
  (forall d,
      data = Ok (JObj d) ->
      (forall v, Dict.lookup "car_make" d = Some v -> json_truthy v = false) \/
      (forall v, Dict.lookup "car_model" d = Some v -> json_truthy v = false) ->
      car_review_videos W data st
        = (Ok (400%Z, videos_error "Car make and model are required"), st)) /\
  (forall v,
      data = Ok v -> (forall d, v <> JObj d) ->
      car_review_videos W data st
        = (Ok (500%Z, videos_error (exn_text (has_no_attribute v "get"))), st)) /\
  (forall e,
      data = Raise e ->
      car_review_videos W data st
        = (Ok (500%Z, videos_error (exn_text e)), st)).
Proof.
  split; [|split; [|split]].
  - unfold car_review_videos. run_monad.
    destruct data as [v|e];
      [|eexists _, _, _, _; repeat split; auto].
    destruct (json_get v "car_make") as [mk|];
      [|eexists _, _, _, _; repeat split; auto].
    destruct (json_get v "car_model") as [md|];
      [|eexists _, _, _, _; repeat split; auto].
    destruct (json_get v "year") as [yr|];
      [|eexists _, _, _, _; repeat split; auto].
    destruct (negb (json_truthy mk) || negb (json_truthy md));
      [eexists _, _, _, _; repeat split; auto|].
    destruct (find_car_review_videos_returns W mk md yr st)
      as (body & videos & events & -> & Hv & _).
    eexists _, _, _, _. repeat split; eauto.
  - intros d -> Hmissing. unfold car_review_videos, json_get. run_monad.
    simpl.
    assert (E : negb (json_truthy
                        match Dict.lookup "car_make" d with
                        | Some x => x | None => JNull end)
                || negb (json_truthy
                           match Dict.lookup "car_model" d with
                           | Some x => x | None => JNull end) = true).
    { destruct Hmissing as [H | H].
      - destruct (Dict.lookup "car_make" d) as [x|];
          [now rewrite (H x eq_refl)|reflexivity].
      - apply orb_true_iff. right.
        destruct (Dict.lookup "car_model" d) as [x|];
          [now rewrite (H x eq_refl)|reflexivity]. }
    now rewrite E.
  - intros v -> Hv. unfold car_review_videos. run_monad.
    destruct v as [| | | | | |d]; try reflexivity. now destruct (Hv d).
  - intros e ->. reflexivity.
Qed.

Section SummaryCalls.

Variable W : World.

(** The calls of one run of the summary generator on a history the
    filter accepts. *)
Lemma generate_conversation_summary_trace (h kept : list Entry) (cid : json)
    (st : St) :
  filter_for_summary h = Ok kept ->
  exists s rest sess,
    generate_conversation_summary W h cid st
      = (Ok s,
         mkSt (trace st
                 ++ EvCompletion (Obj summary_prompt :: kept) JsonObject
                      :: rest)
              sess) /\
    forallb is_bookkeeping rest = true.
Proof.
  intros Hf. unfold generate_conversation_summary. run_monad.
  rewrite Hf. fold (effective_id W cid).
  destruct (chat_completion W (Obj summary_prompt :: kept) JsonObject)
    as [r|e];
    run_monad; cbn [trace session];
    [|eexists _, [], _; split; reflexivity].
  destruct (loads_content W (c_content r)) as [v|e];
    run_monad; cbn [trace session];
    [|eexists _, [], _; split; reflexivity].
  destruct (json_set_item v "conversation_id" (effective_id W cid))
    as [v'|e]; run_monad; cbn [trace session];
    [|eexists _, [], _; split; reflexivity].
  destruct (record_analytics W r) as [e|]; run_monad; cbn [trace session].
  - eexists _, [EvAnalytics], _. rewrite <- app_assoc. split; reflexivity.
  - match goal with
    | |- context [save_summary_to_db W v' ?s0] =>
        destruct (save_summary_to_db_cases W v' s0)
          as [(s & t & k & i & u & n & _ & _ & _ & _ & _ & _ & ->)
             | (events & Hev & ->)]
    end; cbn [trace session committed pending].
    + eexists _, [EvAnalytics; EvDbAdd _; EvDbCommit], _.
      rewrite <- !app_assoc. split; reflexivity.
    + eexists v', (EvAnalytics :: events), _.
      rewrite <- !app_assoc. split; [reflexivity|exact Hev].
Qed.

(** The calls of the step that follows a terminal assistant message. *)
Lemma maybe_summarize_trace (h : list Entry) (st : St) :
  exists r st',
    maybe_summarize W h st = (r, st') /\
    (trace st' = trace st \/
     exists analysed rest,
       trace st' = trace st ++ EvCompletion analysed JsonObject :: rest /\
       forallb is_bookkeeping rest = true).
Proof.
  unfold maybe_summarize. run_monad.
  destruct (detect_end_of_conversation W h) as [[|]|e];
    [|eexists _, _; split; [reflexivity|now left]..].
  destruct (find_conversation_id W h) as [cid|e];
    [|eexists _, _; split; [reflexivity|now left]].
  destruct (filter_for_summary h) as [kept|e] eqn:Hf.
  - destruct (generate_conversation_summary_trace h cid st Hf)
      as (s & rest & sess & Heq & Hrest).
    rewrite Heq. eexists _, _. split; [reflexivity|].
    right. now eexists _, rest.
  - rewrite (generate_on_filter_failure W h cid st Hf).
    eexists _, _. split; [reflexivity|now left].
Qed.

Lemma kept_for_summary_spec (m : Message) :
  kept_for_summary m = true <->
  (role m = Some "user" \/ role m = Some "assistant" /\ tool_calls m = Absent).
Proof.
  unfold kept_for_summary, role_is, has_tool_calls_key. split.
  - destruct (role m) as [r|]; [|discriminate].
    destruct (String.eqb_spec r "user") as [->|_]; [now left|].
    destruct (String.eqb_spec r "assistant") as [->|_]; [|discriminate].
    destruct (tool_calls m); simpl; try discriminate. now right.
  - intros [-> | [-> ->]]; reflexivity.
Qed.

End SummaryCalls.

(** X16. One run of [generate_conversation_summary] on a history of JSON
    objects asks the model exactly once, for a JSON object, and calls no
    tool: its calls are that request followed by analytics and database
    steps only. The request holds the instruction prompt followed by
    exactly the user messages and the assistant messages without a
    [tool_calls] key, in their order: system and tool messages and
    tool-call requests are not sent. A run on a history that holds an
    entry that is not a JSON object makes no call at all. *)
Theorem generate_conversation_summary_calls (W : World) (h : list Message)
    (cid : json) (st : St) :
  (exists rest,
      trace (snd (generate_conversation_summary W (map Obj h) cid st))
        = trace st ++ EvCompletion (summary_request h) JsonObject :: rest /\
      forallb is_bookkeeping rest = true) /\
  (exists keep : Message -> bool,
      summary_request h = Obj summary_prompt :: map Obj (filter keep h) /\
      (forall m,
          keep m = true <->
          role m = Some "user" \/
          role m = Some "assistant" /\ tool_calls m = Absent)) /\
  (forall v after,
      snd (generate_conversation_summary W (map Obj h ++ NotObj v :: after)
             cid st) = st).
Proof.
  split; [|split].
  - destruct (generate_conversation_summary_trace W (map Obj h) cid st
                (filter_for_summary_objects h))
      as (s & rest & sess & -> & Hrest).
    now exists rest.
  - exists kept_for_summary. split; [reflexivity|].
    apply kept_for_summary_spec.
  - intros v after.
    now rewrite (generate_on_filter_failure W _ cid st
                   (filter_for_summary_not_object h v after)).
Qed.

(** X17. [POST /generate-summary] with a JSON object whose
    [conversation_history] is a list of JSON objects, or is missing,
    always answers 200 with a summary, also when the model API or the
    database fails. A list that holds an entry that is not a JSON object
    is answered 500 with the [AttributeError] of the first such entry,
    and nothing is called. *)
Theorem generate_summary_always_answers (W : World) (o : RequestObject)
    (st : St) :
  dict_truthy o = true ->
  ((r_history o = HistAbsent \/
    exists h : list Message, r_history o = HistList (map Obj h)) ->
   exists s,
     fst (generate_summary W (BodyDict o) st) = Ok (SummaryResponse s) /\
     status_of (SummaryResponse s) = 200%Z) /\
  (forall (before : list Message) v after,
      r_history o = HistList (map Obj before ++ NotObj v :: after) ->
      generate_summary W (BodyDict o) st
        = (Ok (ErrorResponse 500 (exn_text (entry_has_no_get v))), st)).
Proof.
  intros Ht. split.
  - intros Hh. unfold generate_summary, generate_summary_body. run_monad.
    rewrite Ht.
    destruct Hh as [-> | (h & ->)].
    + destruct (@generate_conversation_summary_returns W [] []
                  (match r_conversation_id o with
                   | Some v => v
                   | None => JNull
                   end) st eq_refl) as (s & st' & ->).
      now exists s.
    + destruct (@generate_conversation_summary_returns W (map Obj h) _
                  (match r_conversation_id o with
                   | Some v => v
                   | None => JNull
                   end) st (filter_for_summary_objects h))
        as (s & st' & ->).
      now exists s.
  - intros before v after Hh.
    unfold generate_summary, generate_summary_body. run_monad.
    rewrite Ht, Hh.
    now rewrite (generate_on_filter_failure W _ _ st
                   (filter_for_summary_not_object before v after)).
Qed.

Lemma generate_summary_always_answers_witness :
  (exists s,
      fst (generate_summary Sample.world_api_down
             (Sample.request None [Obj (user_msg "Hi")])
             (fresh empty_session))
        = Ok (SummaryResponse s) /\
      status_of (SummaryResponse s) = 200%Z) /\
  generate_summary Sample.world
    (Sample.request None [Obj (user_msg "Hi"); NotObj (NInt 7)])
    (fresh empty_session)
  = (Ok (ErrorResponse 500 "'int' object has no attribute 'get'"),
     fresh empty_session).
Proof.
  split.
  - apply (proj1 (@generate_summary_always_answers Sample.world_api_down
                    (mkRequest None (HistList [Obj (user_msg "Hi")])
                               None false)
                    (fresh empty_session) eq_refl)).
    right. now exists [user_msg "Hi"].
  - apply (proj2 (@generate_summary_always_answers Sample.world
                    (mkRequest None
                       (HistList [Obj (user_msg "Hi"); NotObj (NInt 7)])
                       None false)
                    (fresh empty_session) eq_refl)
             [user_msg "Hi"] (NInt 7) [] eq_refl).
Defined.

(* ===================================================================== *)
(** * Further properties: [/chat] *)
(* ===================================================================== *)

Section ChatMore.

Variable W : World.

Lemma find_tool_call_message_last (before : list Entry) (m : Message) :
  is_tool_call_message m = true ->
  find_tool_call_message (before ++ [Obj m]) = Ok (Some m).
Proof.
  intros H. now apply find_tool_call_message_found.
Qed.

Lemma bookkeeping_is_no_tool (events : list Event) :
  forallb is_bookkeeping events = true ->
  forallb (fun ev => negb (is_tool_event ev)) events = true.
Proof.
  induction events as [|ev events IH]; simpl; [reflexivity|].
  intros H. apply andb_true_iff in H as [Hev H].
  rewrite (IH H). now destruct ev.
Qed.

End ChatMore.

(** X18. [/chat] never runs a tool. Whatever the request, the calls it
    makes are none at all, or one completion request that offers the
    tools, followed at most by the summary step: one completion request
    for a JSON object and then analytics and database steps. *)
Theorem chat_calls (W : World) (data : Body) (st : St) :
  exists events,
    trace (snd (chat W data st)) = trace st ++ events /\
    forallb (fun ev => negb (is_tool_event ev)) events = true /\
    (events = [] \/
     exists sent,
       events = [EvCompletion sent WithTools] \/
       exists analysed rest,
         events = EvCompletion sent WithTools
                    :: EvCompletion analysed JsonObject :: rest /\
         forallb is_bookkeeping rest = true).
Proof.
  assert (Hnone : forall r, exists events,
             trace (snd (r : result Response, st)) = trace st ++ events /\
             forallb (fun ev => negb (is_tool_event ev)) events = true /\
             (events = [] \/
              exists sent,
                events = [EvCompletion sent WithTools] \/
                exists analysed rest,
                  events = EvCompletion sent WithTools
                             :: EvCompletion analysed JsonObject :: rest /\
                  forallb is_bookkeeping rest = true)).
  { intros r. exists []. simpl. rewrite app_nil_r. auto. }
  destruct data as [err| |type|o]; try apply Hnone.
  rewrite chat_run.
  destruct (dict_truthy o); [|apply Hnone].
  destruct (read_message W o) as [um|e]; [|apply Hnone].
  destruct (negb (Str.truthy um)); [apply Hnone|].
  destruct (ensure_system_context _ _) as [ensured|e]; [|apply Hnone].
  destruct (chat_completion W ensured WithTools) as [message|e].
  - cbv zeta.
    destruct (maybe_summarize_trace W
                (ensured ++ [Obj (chat_assistant_message W message)])
                (extends st [EvCompletion ensured WithTools]))
      as (r & st' & -> & [Htr | (analysed & rest & Htr & Hrest)]).
    + exists [EvCompletion ensured WithTools].
      split; [now destruct r; simpl; rewrite Htr|].
      split; [reflexivity|]. right. exists ensured. now left.
    + exists (EvCompletion ensured WithTools
                :: EvCompletion analysed JsonObject :: rest).
      split; [destruct r; simpl; rewrite Htr; simpl;
              now rewrite <- app_assoc|].
      split; [simpl; now apply bookkeeping_is_no_tool|].
      right. exists ensured. right. now eexists _, _.
  - exists [EvCompletion ensured WithTools]. simpl.
    split; [reflexivity|]. split; [reflexivity|].
    right. exists ensured. now left.
Qed.

(** X19. The history [/chat] returns is the incoming history after the
    insertion step, with one assistant message appended; the reply in the
    response is that message's content; and [tool_call_detected] is true
    exactly when that message carries the model's tool calls, the message
    having no [tool_calls] key otherwise. *)
Theorem chat_response_shape (W : World) (o : RequestObject) (st : St)
    (reply : string) (hist : list Entry) (detected : bool) (summary : json) :
  fst (chat W (BodyDict o) st)
    = Ok (ChatResponse reply hist detected summary) ->
  exists ensured m,
    ensure_system_context (current_time_formatted W) (incoming_history o)
      = Ok ensured /\
    hist = ensured ++ [Obj m] /\
    role m = Some "assistant" /\
    content m = Val reply /\
    detected = has_tool_calls m /\
    (detected = false -> tool_calls m = Absent).
Proof.
  rewrite chat_run.
  destruct (dict_truthy o); [|discriminate].
  destruct (read_message W o) as [um|e]; [|discriminate].
  destruct (negb (Str.truthy um)); [discriminate|].
  destruct (ensure_system_context _ _) as [ensured|e]; [|discriminate].
  destruct (chat_completion W ensured WithTools) as [message|e];
    [|discriminate].
  cbv zeta. destruct (maybe_summarize W _ _) as [[s|e] st']; [|discriminate].
  simpl. intros H. injection H as <- <- <- <-.
  exists ensured, (chat_assistant_message W message).
  repeat split; unfold chat_assistant_message, has_tool_calls; simpl;
    now destruct (c_tool_calls message).
Qed.

Lemma chat_response_shape_witness :
  exists ensured m,
    ensure_system_context (current_time_formatted Sample.world) []
      = Ok ensured /\
    content m = Val "Here is what I found." /\
    tool_calls m = Absent.
Proof.
  destruct (@chat_response_shape Sample.world
              (mkRequest (Some (JStr "Hi")) (HistList []) None false)
              (fresh empty_session) _ _ _ _ eq_refl)
    as (ensured & m & He & _ & _ & Hc & _ & Ha).
  exists ensured, m. split; [exact He|]. split; [exact Hc|].
  apply Ha. reflexivity.
Defined.

(** X20. A [/chat] response with [tool_call_detected] true carries a
    history that [/tool-call-result] accepts as holding a pending tool
    call: its last message is the one the search of that route finds. The
    reply is then one of two fixed texts. With the processing notice, the
    arguments of the first call decode; with the parse-error text,
    submitting the history to [/tool-call-result] is answered 400 for the
    same parse error, with nothing called. *)
Theorem chat_then_tool_call_result (W : World) (o : RequestObject) (st : St)
    (reply : string) (hist : list Entry) (summary : json) :
  fst (chat W (BodyDict o) st) = Ok (ChatResponse reply hist true summary) ->
  exists before m first rest,
    hist = before ++ [Obj m] /\
    find_tool_call_message hist = Ok (Some m) /\
    calls_of m = first :: rest /\
    ((reply = "Processing your request..." /\
      exists args, json_loads W (tc_arguments first) = Ok args) \/
     (reply = "Error parsing tool arguments." /\
      forall message st2,
        tool_call_result W
          (BodyDict (mkRequest message (HistList hist) None false)) st2
          = (Ok (ErrorResponse 400 "Error parsing tool arguments"), st2))).
Proof.
  rewrite chat_run.
  destruct (dict_truthy o); [|discriminate].
  destruct (read_message W o) as [um|e]; [|discriminate].
  destruct (negb (Str.truthy um)); [discriminate|].
  destruct (ensure_system_context _ _) as [ensured|e]; [|discriminate].
  destruct (chat_completion W ensured WithTools) as [message|e];
    [|discriminate].
  cbv zeta. destruct (maybe_summarize W _ _) as [[s|e] st']; [|discriminate].
  simpl. intros H. injection H as <- <- Hd <-.
  destruct (c_tool_calls message) as [|first rest] eqn:Hcalls;
    [discriminate|].
  set (m := chat_assistant_message W message).
  assert (Hm : is_tool_call_message m = true).
  { subst m. unfold is_tool_call_message, chat_assistant_message,
      has_tool_calls. simpl. now rewrite Hcalls. }
  assert (Hc : calls_of m = first :: rest).
  { subst m. unfold calls_of, chat_assistant_message. simpl.
    now rewrite Hcalls. }
  exists ensured, m, first, rest.
  split; [reflexivity|]. split; [now apply find_tool_call_message_last|].
  split; [exact Hc|].
  unfold chat_reply. rewrite Hcalls.
  destruct (json_loads W (tc_arguments first)) as [args|e] eqn:Hl.
  - left. split; [reflexivity|]. now exists args.
  - right. split; [reflexivity|]. intros message0 st2.
    rewrite (@tool_call_result_run W
               (mkRequest message0 (HistList (ensured ++ [Obj m])) None false)
               (ensured ++ [Obj m]) m st2 eq_refl
               (find_tool_call_message_last ensured m Hm)).
    rewrite Hc. cbn [process_tool_calls]. now rewrite Hl.
Qed.

Lemma chat_then_tool_call_result_witness :
  exists hist m first rest,
    fst (chat sample_world_tool_call
           (Sample.request (Some (JStr "Which Nissans do you have?"))
              [Obj (user_msg "Which Nissans do you have?")])
           (fresh empty_session))
      = Ok (ChatResponse "Processing your request..." hist true JNull) /\
    find_tool_call_message hist = Ok (Some m) /\
    calls_of m = first :: rest.
Proof.
  destruct (@chat_then_tool_call_result sample_world_tool_call
              (mkRequest (Some (JStr "Which Nissans do you have?"))
                 (HistList [Obj (user_msg "Which Nissans do you have?")])
                 None false)
              (fresh empty_session) _ _ _ eq_refl)
    as (before & m & first & rest & Hh & Hf & Hc & _).
  eexists _, m, first, rest.
  split; [reflexivity|]. split; [exact Hf|exact Hc].
Defined.

(* ===================================================================== *)
(** * Further properties: [/tool-call-result] *)
(* ===================================================================== *)

Section ToolResultMore.

Variable W : World.

(** Whatever the loop does, the history it hands on is the incoming one
    with one tool message per call, keyed by the calls' ids in order. *)
Lemma process_tool_calls_appends (calls : list ToolCall) :
  forall h st h' st',
    process_tool_calls W calls h st = (Ok (inr h'), st') ->
    exists tools,
      h' = h ++ map Obj tools /\
      Forall2 (fun c t => role t = Some "tool" /\
                          tool_call_id t = Some (tc_id c))
              calls tools.
Proof.
  induction calls as [|c calls IH]; intros h st h' st'; simpl.
  - unfold ret. intros H. injection H as <- _. exists [].
    simpl. now rewrite app_nil_r.
  - destruct (json_loads W (tc_arguments c)) as [args|];
      [|unfold ret; discriminate].
    destruct (registered (tc_name c)); [|unfold ret; discriminate].
    unfold bind at 1.
    destruct (run_tool W (tc_name c) args st) as [[r|e] st1];
      [|discriminate].
    intros H. apply IH in H as (tools & -> & Htools).
    exists (tool_response_message W (tc_id c) r :: tools).
    rewrite <- app_assoc. split; [reflexivity|].
    constructor; [now split|exact Htools].
Qed.

Lemma finalize_appends (h : list Entry) (st st' : St) (f : string)
    (hist : list Entry) (s : json) :
  finalize W h st = (Ok (ToolResultResponse f hist s), st') ->
  hist = h ++ [Obj (assistant_msg f)].
Proof.
  unfold finalize. run_monad.
  destruct (chat_completion W h Plain) as [message|e]; [|discriminate].
  destruct (maybe_summarize W _ _) as [[summary|e] st2]; [|discriminate].
  intros H. now injection H as <- <- _ _.
Qed.

Lemma finalize_response (h : list Entry) (st st' : St) (r : Response) :
  finalize W h st = (Ok r, st') ->
  exists f hist s, r = ToolResultResponse f hist s.
Proof.
  unfold finalize. run_monad.
  destruct (chat_completion W h Plain) as [message|e]; [|discriminate].
  destruct (maybe_summarize W _ _) as [[summary|e] st2]; [|discriminate].
  intros H. injection H as <- _. now eexists _, _, _.
Qed.

Lemma process_tool_calls_refusal (calls : list ToolCall) :
  forall h st r st',
    process_tool_calls W calls h st = (Ok (inl r), st') ->
    exists text, r = ErrorResponse 400 text.
Proof.
  induction calls as [|c calls IH]; intros h st r st'; simpl.
  - unfold ret. discriminate.
  - destruct (json_loads W (tc_arguments c)) as [args|];
      [|unfold ret; intros H; injection H as <- _; now eexists].
    destruct (registered (tc_name c));
      [|unfold ret; intros H; injection H as <- _; now eexists].
    unfold bind at 1.
    destruct (run_tool W (tc_name c) args st) as [[x|e] st1];
      [|discriminate].
    apply IH.
Qed.


End ToolResultMore.





(** X23. [/tool-call-result] only appends to the history it is given:
    every successful response carries the incoming history unchanged,
    followed by one tool message per call of the pending message, keyed by
    the calls' ids in their order, followed by one assistant message whose
    content is the [final_response]. Every other response is a 400 or a
    500. *)
Theorem tool_call_result_appends (W : World) (o : RequestObject)
    (h : list Entry) (st : St) :
  r_history o = HistList h ->
  (exists status text,
      fst (tool_call_result W (BodyDict o) st) = Ok (ErrorResponse status text) /\
      (status = 400 \/ status = 500)%Z) \/
  (exists m tools final summary,
      find_tool_call_message h = Ok (Some m) /\
      fst (tool_call_result W (BodyDict o) st)
        = Ok (ToolResultResponse final
                (h ++ map Obj tools ++ [Obj (assistant_msg final)]) summary) /\
      Forall2 (fun c t => role t = Some "tool" /\
                          tool_call_id t = Some (tc_id c))
              (calls_of m) tools).
Proof.
  intros Hh.
  destruct (find_tool_call_message h) as [[m|]|e] eqn:Hfind.
  - rewrite (tool_call_result_run W o st Hh Hfind).
    destruct (process_tool_calls W (calls_of m) h st)
      as [[[resp|h']|e] st'] eqn:Hp.
    + left. apply process_tool_calls_refusal in Hp as [text ->].
      eexists _, _. split; [reflexivity|now left].
    + destruct (finalize W h' st') as [[resp|e] st''] eqn:Hf.
      * right.
        destruct (@finalize_response W h' st' st'' resp Hf)
          as (f & hist & s & ->).
        apply finalize_appends in Hf as ->.
        apply process_tool_calls_appends in Hp as (tools & -> & Htools).
        exists m, tools, f, s. rewrite <- app_assoc. repeat split.
        exact Htools.
      * left. eexists _, _. split; [reflexivity|now right].
    + left. eexists _, _. split; [reflexivity|now right].
  - left. unfold tool_call_result, tool_call_result_body. run_monad.
    rewrite (history_gives_truthy _ Hh), Hh, Hfind.
    eexists _, _. split; [reflexivity|now left].
  - left. unfold tool_call_result, tool_call_result_body. run_monad.
    rewrite (history_gives_truthy _ Hh), Hh, Hfind.
    eexists _, _. split; [reflexivity|now right].
Qed.

Lemma tool_call_result_appends_witness :
  let asked :=
    mkMessage (Some "assistant") (Val "Processing your request...")
              (Val [Sample.pending_call "call_1" "fetch_cars"]) None in
  exists tools final summary,
    fst (tool_call_result Sample.world
           (Sample.request None [Obj (user_msg "Which Nissans?"); Obj asked])
           (fresh empty_session))
      = Ok (ToolResultResponse final
              ([Obj (user_msg "Which Nissans?"); Obj asked] ++ map Obj tools
                 ++ [Obj (assistant_msg final)])
              summary).
Proof.
  cbv zeta.
  destruct (@tool_call_result_appends Sample.world
              (mkRequest None
                 (HistList
                    [Obj (user_msg "Which Nissans?");
                     Obj (mkMessage (Some "assistant")
                            (Val "Processing your request...")
                            (Val [Sample.pending_call "call_1" "fetch_cars"])
                            None)])
                 None false)
              _ (fresh empty_session) eq_refl)
    as [(status & text & H & _) | (m & tools & final & summary & _ & H & _)].
  - vm_compute in H. discriminate H.
  - exists tools, final, summary. exact H.
Defined.

(** X24. The branch of [/tool-call-result] for a found message without
    tool calls (lines 346-441, the default inventory or video lookup under
    the id [fallback_tool_call]) is never taken: the route behaves, on
    every request and in every world, as the route without that branch. *)
Theorem tool_call_result_fallback_unreachable (W : World) (data : Body)
    (st : St) :
  tool_call_result W data st = tool_call_result_live W data st.
Proof.
  unfold tool_call_result, tool_call_result_live, tool_call_result_body.
  run_monad.
  destruct data as [err| |type|o]; try reflexivity.
  destruct (dict_truthy o); [|reflexivity].
  destruct (r_history o) as [| |h]; try reflexivity.
  destruct (find_tool_call_message h) as [[m|]|e] eqn:Hfind;
    [|reflexivity..].
  now rewrite (find_tool_call_message_has_calls _ Hfind).
Qed.

(** X25. The history [/chat] returns needs no further system message:
    the insertion step of the next [/chat] request, run on it at any later
    time, returns it unchanged. *)
Theorem chat_history_is_complete (W : World) (o : RequestObject) (st : St)
    (reply : string) (hist : list Entry) (detected : bool) (summary : json)
    (later : string) :
  fst (chat W (BodyDict o) st)
    = Ok (ChatResponse reply hist detected summary) ->
  ensure_system_context later hist = Ok hist.
Proof.
  rewrite chat_run.
  destruct (dict_truthy o); [|discriminate].
  destruct (read_message W o) as [um|e]; [|discriminate].
  destruct (negb (Str.truthy um)); [discriminate|].
  destruct (ensure_system_context _ _) as [ensured|e] eqn:He; [|discriminate].
  destruct (chat_completion W ensured WithTools) as [message|e];
    [|discriminate].
  cbv zeta. destruct (maybe_summarize W _ _) as [[s|e] st']; [|discriminate].
  simpl. intros H. injection H as _ <- _ _.
  destruct (ensure_system_context_marks _ _ He) as [Hp Ht].
  apply ensure_system_context_marked; now apply any_system_with_app_true.
Qed.

Lemma chat_history_is_complete_witness :
  exists hist,
    fst (chat Sample.world (Sample.request (Some (JStr "Hi")) [])
              (fresh empty_session))
      = Ok (ChatResponse "Here is what I found." hist false JNull) /\
    ensure_system_context "2031-01-01 00:00:00 EST" hist = Ok hist.
Proof.
  eexists. split; [reflexivity|].
  apply (@chat_history_is_complete Sample.world
           (mkRequest (Some (JStr "Hi")) (HistList []) None false)
           (fresh empty_session) _ _ _ _ "2031-01-01 00:00:00 EST" eq_refl).
Defined.
